(** * A shallow embedding of the RAG chatbot backend

    The repository wires a PDF ingestion pipeline, a retrieval-augmented
    query pipeline and two push-notification endpoints on top of third-party
    services.  The handlers are Python functions that mutate process-wide
    state (the Chroma collection, the temporary directory, the token set) and
    raise exceptions; they are embedded here as computations in a small
    state-and-exception monad over an explicit [World]. *)

From Stdlib Require Import Strings.Byte Strings.Ascii Strings.String.
From stdpp Require Import base gmap strings list sorting pretty.

Open Scope string_scope.
Open Scope list_scope.

(** ** Python values *)

Module Py.

(** The line feed character of Python's ["\n"]. *)
Definition nl : string := String (Ascii.ascii_of_nat 10) EmptyString.

(** [sep.join(parts)]. *)
Definition join (sep : string) (parts : list string) : string :=
  String.concat sep parts.

(** [str(xs)] for a Python list, given the [repr] of each element. *)
Definition str_list (reprs : list string) : string :=
  "[" +:+ join ", " reprs +:+ "]".

(** [str(n)] for a non-negative [int]. *)
Definition str_int (n : nat) : string := pretty n.

End Py.

(** ** Exceptions and the handler monad *)

(** Exceptions that cross the functions of the repository: errors raised by
    the operating system or by a third-party client, which carry a message,
    and FastAPI's [HTTPException]. *)
Inductive exn : Type :=
| Error (msg : string)
| HTTPException (status_code : nat) (detail : string).

(** [str(e)], as interpolated in the f-strings of the handlers. *)
Definition str_exn (e : exn) : string :=
  match e with
  | Error msg => msg
  | HTTPException code detail => Py.str_int code +:+ ": " +:+ detail
  end.

Inductive Result (A : Type) : Type :=
| Ok (a : A)
| Raise (e : exn).
Arguments Ok {A} a.
Arguments Raise {A} e.

(** A computation over a state [S] that returns or raises. *)
Definition M (S A : Type) : Type := S -> Result A * S.

Definition ret {S A} (a : A) : M S A := fun s => (Ok a, s).

Definition bind {S A B} (m : M S A) (k : A -> M S B) : M S B :=
  fun s => match m s with
           | (Ok a, s') => k a s'
           | (Raise e, s') => (Raise e, s')
           end.

Definition raise {S A} (e : exn) : M S A := fun s => (Raise e, s).

(** [try: body except Exception as e: handler e]. *)
Definition try_except {S A} (body : M S A) (handler : exn -> M S A) : M S A :=
  fun s => match body s with
           | (Ok a, s') => (Ok a, s')
           | (Raise e, s') => handler e s'
           end.

(** [try: body finally: fin]: [fin] runs on every exit of [body]; an
    exception of [fin] replaces the outcome of [body]. *)
Definition try_finally {S A} (body : M S A) (fin : M S unit) : M S A :=
  fun s => let '(r, s') := body s in
           match fin s' with
           | (Ok _, s'') => (r, s'')
           | (Raise e, s'') => (Raise e, s'')
           end.

Definition gets {S A} (f : S -> A) : M S A := fun s => (Ok (f s), s).
Definition modify {S} (f : S -> S) : M S unit := fun s => (Ok tt, f s).

#[export] Instance M_ret {S} : MRet (M S) := @ret S.
#[export] Instance M_bind {S} : MBind (M S) := fun A B k m => bind m k.

(** ** The data model *)

(** Source metadata attached by the PDF loader. *)
Record Metadata : Type := { source : string; page : nat }.

(** A LangChain [Document]: the chunk text and its metadata (the bootstrap
    text of the store has none). *)
Record Document : Type := { page_content : string; metadata : option Metadata }.

(** The persistence directory of the Chroma store, as [get_vector_store]
    observes it: missing, present with no entry, or present with at least
    one entry and holding the stored collection. *)
Inductive PersistDir : Type :=
| NoDir
| EmptyDir
| ChromaDir (docs : list Document).

(** The entries of the vector index, in insertion order. *)
Definition index_of (d : PersistDir) : list Document :=
  match d with
  | NoDir | EmptyDir => []
  | ChromaDir docs => docs
  end.

(** Outbound calls to the hosted services. *)
Inductive NetCall : Type :=
| EmbedDocuments (texts : list string)
| EmbedQuery (text : string)
| Completion (prompt : string)
| SendMulticast (tokens : list string) (title body : string).

Record World : Type := {
  chroma : PersistDir;                (* CHROMA_PERSIST_DIR and its collection *)
  files : gmap string (list byte);    (* regular files, by path *)
  fcm_tokens : gset string;           (* the module-level set of main.py *)
  net : list NetCall;                 (* calls made so far, oldest first *)
  stdout : list string                (* lines printed so far, oldest first *)
}.

Definition index (w : World) : list Document := index_of (chroma w).

Definition set_chroma (d : PersistDir) (w : World) : World :=
  {| chroma := d; files := files w; fcm_tokens := fcm_tokens w;
     net := net w; stdout := stdout w |}.
Definition set_files (fs : gmap string (list byte)) (w : World) : World :=
  {| chroma := chroma w; files := fs; fcm_tokens := fcm_tokens w;
     net := net w; stdout := stdout w |}.
Definition set_fcm_tokens (ts : gset string) (w : World) : World :=
  {| chroma := chroma w; files := files w; fcm_tokens := ts;
     net := net w; stdout := stdout w |}.
Definition set_net (calls : list NetCall) (w : World) : World :=
  {| chroma := chroma w; files := files w; fcm_tokens := fcm_tokens w;
     net := calls; stdout := stdout w |}.
Definition set_stdout (out : list string) (w : World) : World :=
  {| chroma := chroma w; files := files w; fcm_tokens := fcm_tokens w;
     net := net w; stdout := out |}.

(** [print(line)]. *)
Definition print (line : string) : M World unit :=
  modify (fun w => set_stdout (stdout w ++ [line]) w).

(** Records an outbound call. *)
Definition call_out (c : NetCall) : M World unit :=
  modify (fun w => set_net (net w ++ [c]) w).

(** ** External collaborators *)

(** The pure functions of the third-party libraries. *)
Record Services : Type := {
  (* pypdf: the text of each page, or the error for a malformed file *)
  extract_pages : list byte -> Result (list string);
  (* RecursiveCharacterTextSplitter(chunk_size, chunk_overlap).split_text *)
  split_text : nat -> nat -> string -> list string;
  (* distance between the embeddings of a question and of a stored text *)
  distance : string -> string -> nat;
  (* repr of a str and of a Document *)
  repr_str : string -> string;
  repr_doc : Document -> string
}.

(** What the operating system and the hosted services answer during one
    handler invocation. *)
Record Oracle : Type := {
  (* NamedTemporaryFile(delete=False, suffix=".pdf"): the path created *)
  tmp_create : Result string;
  (* tmp_file.write(file.file.read()) *)
  tmp_write : option exn;
  (* embedding and upsert of a batch into the collection *)
  store_write : option exn;
  (* embedding of the question and nearest-neighbour query *)
  store_read : option exn;
  (* the chat model, on a prompt *)
  llm_reply : string -> Result string;
  (* messaging.send_multicast: per-token success flags *)
  fcm_reply : list string -> Result (list bool);
  (* credentials.Certificate and firebase_admin.initialize_app *)
  firebase_init : option exn
}.

(** A multipart upload. *)
Record UploadFile : Type := {
  filename : string;
  content_type : option string;
  file : list byte
}.

(** [core/config.py]: the settings read from the environment. *)
Record Settings : Type := {
  GOOGLE_API_KEY : string;
  CHROMA_PERSIST_DIR : string;
  MODEL_NAME : string;
  EMBEDDING_MODEL_NAME : string
}.

(** ** [core/vector_store.py] *)

Module vector_store.
Section WithSettings.
Context (settings : Settings).

Definition bootstrap_text : string :=
  "Este es un documento inicial para la base de datos vectorial.".

(** The entry that [from_texts] makes of the bootstrap text. *)
Definition bootstrap_document : Document :=
  {| page_content := bootstrap_text; metadata := None |}.

(** [os.path.exists(persist_directory) and os.listdir(persist_directory)]. *)
Definition exists_and_listed (d : PersistDir) : bool :=
  match d with
  | NoDir => false
  | EmptyDir => false
  | ChromaDir _ => true
  end.

(** [os.makedirs(persist_directory, exist_ok=True)]. *)
Definition os_makedirs : M World unit :=
  modify (fun w => match chroma w with
                   | NoDir => set_chroma EmptyDir w
                   | _ => w
                   end).

(** The [ValueError] of the store for a batch without entries. *)
Definition empty_batch : exn :=
  Error "Expected IDs to be a non-empty list, got 0 IDs".

(** Modelled from the spec: the batch write of the external vector store
    behind [add_documents] and [from_texts] ("append-only insertion", "the
    upsert is treated as all-or-nothing by the underlying store").  The texts
    are sent to the embedding service and stored as new entries after the
    existing ones, all of them or, when the service fails, none.  A batch
    without entries has nothing to embed and is refused by the store. *)
Definition upsert (orc : Oracle) (docs : list Document) : M World unit :=
  if (length docs =? 0)%nat then raise empty_batch
  else
    call_out (EmbedDocuments (map page_content docs));;
    match store_write orc with
    | Some e => raise e
    | None => modify (fun w => set_chroma (ChromaDir (index w ++ docs)) w)
    end.

(** [vector_store_instance.add_documents(chunks)]. *)
Definition add_documents (orc : Oracle) (chunks : list Document) : M World unit :=
  upsert orc chunks.

(** [Chroma.from_texts(texts=..., embedding=..., persist_directory=...)]. *)
Definition from_texts (orc : Oracle) (texts : list string) : M World unit :=
  upsert orc (map (fun t => {| page_content := t; metadata := None |}) texts).

Definition get_vector_store (orc : Oracle) : M World unit :=
  let persist_directory := CHROMA_PERSIST_DIR settings in
  d ← gets chroma;
  if exists_and_listed d then
    print ("Cargando ChromaDB existente desde: " +:+ persist_directory)
  else
    print ("Creando nueva ChromaDB en: " +:+ persist_directory);;
    os_makedirs;;
    from_texts orc [bootstrap_text].

End WithSettings.
End vector_store.

(** ** [services/pdf_service.py] *)

Module pdf_service.
Section WithServices.
Context (svc : Services).

(** [NamedTemporaryFile(delete=False, suffix=".pdf")]: the file exists,
    empty, as soon as the call returns. *)
Definition NamedTemporaryFile (orc : Oracle) : M World string :=
  fun w => match tmp_create orc with
           | Ok path => (Ok path, set_files (<[path := []]> (files w)) w)
           | Raise e => (Raise e, w)
           end.

(** [tmp_file.write(file.file.read())]: the statement stores the data or
    raises and leaves the file as it was created. *)
Definition tmp_file_write (orc : Oracle) (path : string) (data : list byte)
  : M World unit :=
  match tmp_write orc with
  | Some e => raise e
  | None => modify (fun w => set_files (<[path := data]> (files w)) w)
  end.

Definition os_path_exists (path : string) : M World bool :=
  gets (fun w => bool_decide (is_Some (files w !! path))).

Definition os_remove (path : string) : M World unit :=
  modify (fun w => set_files (delete path (files w)) w).

(** One document per page, tagged with the path and the page number. *)
Definition page_documents (file_path : string) (pages : list string)
  : list Document :=
  imap (fun i text => {| page_content := text;
                         metadata := Some {| source := file_path; page := i |} |})
       pages.

(** [PyPDFLoader(file_path).load()]. *)
Definition PyPDFLoader_load (file_path : string) : M World (list Document) :=
  fun w => match files w !! file_path with
           | None => (Raise (Error ("File path " +:+ file_path +:+
                                    " is not a valid file or url")), w)
           | Some data =>
               match extract_pages svc data with
               | Ok pages => (Ok (page_documents file_path pages), w)
               | Raise e => (Raise e, w)
               end
           end.

(** [RecursiveCharacterTextSplitter(chunk_size, chunk_overlap)
    .split_documents(documents)]: every page is split on its own and each
    chunk keeps the metadata of its page. *)
Definition split_documents (chunk_size chunk_overlap : nat)
    (documents : list Document) : list Document :=
  flat_map (fun doc =>
              map (fun chunk => {| page_content := chunk;
                                   metadata := metadata doc |})
                  (split_text svc chunk_size chunk_overlap (page_content doc)))
           documents.

(** The local variables of [process_and_update_vector_store] that outlive
    the [try] block: [tmp_file_path] is unbound until its assignment. *)
Record Frame : Type := { world : World; tmp_file_path : option string }.

Definition in_world {A} (m : M World A) : M Frame A :=
  fun fr => let '(r, w) := m (world fr) in
            (r, {| world := w; tmp_file_path := tmp_file_path fr |}).

Definition assign_tmp_file_path (path : string) : M Frame unit :=
  modify (fun fr => {| world := world fr; tmp_file_path := Some path |}).

Definition call_with_locals {A} (body : M Frame A) : M World A :=
  fun w => let '(r, fr) := body {| world := w; tmp_file_path := None |} in
           (r, world fr).

Definition process_and_update_vector_store (orc : Oracle) (upload : UploadFile)
  : M World unit :=
  call_with_locals
    (try_finally
       (try_except
          ((* with tempfile.NamedTemporaryFile(...) as tmp_file: *)
           tmp_file ← in_world (NamedTemporaryFile orc);
           in_world (tmp_file_write orc tmp_file (file upload));;
           assign_tmp_file_path tmp_file;;
           in_world (print ("Archivo PDF temporal guardado en: " +:+ tmp_file));;
           documents ← in_world (PyPDFLoader_load tmp_file);
           let chunks := split_documents 1000 100 documents in
           in_world (print ("PDF dividido en " +:+ Py.str_int (length chunks)
                              +:+ " chunks."));;
           in_world (vector_store.add_documents orc chunks);;
           in_world (print
             "Base de datos vectorial actualizada con los nuevos chunks."))
          (fun e =>
             in_world (print ("Error procesando el archivo PDF: " +:+ str_exn e));;
             raise e))
       ((* if 'tmp_file_path' in locals() and os.path.exists(tmp_file_path): *)
        bound ← gets tmp_file_path;
        match bound with
        | None => mret tt
        | Some path =>
            present ← in_world (os_path_exists path);
            if (present : bool) then
              in_world (os_remove path);;
              in_world (print ("Archivo temporal eliminado: " +:+ path))
            else mret tt
        end)).

Definition process_pdf_from_path (orc : Oracle) (file_path : string)
  : M World unit :=
  try_except
    (print ("Cargando archivo PDF desde: " +:+ file_path);;
     documents ← PyPDFLoader_load file_path;
     let chunks := split_documents 1000 100 documents in
     print ("PDF dividido en " +:+ Py.str_int (length chunks) +:+ " chunks.");;
     vector_store.add_documents orc chunks;;
     print "Base de datos vectorial actualizada con los nuevos chunks.")
    (fun e =>
       print ("Error procesando el archivo PDF desde la ruta: " +:+ str_exn e);;
       raise e).

(** The texts of the chunks of [pages], whatever the path they are read at. *)
Definition chunk_texts (pages : list string) : list string :=
  flat_map (split_text svc 1000 100) pages.

(** The chunks that ingesting [pages], read at [file_path], produces. *)
Definition chunks_of (file_path : string) (pages : list string) : list Document :=
  split_documents 1000 100 (page_documents file_path pages).

(** The lines the ingestion functions print. *)
Definition saved_line (path : string) : string :=
  "Archivo PDF temporal guardado en: " +:+ path.
Definition split_line (chunks : list Document) : string :=
  "PDF dividido en " +:+ Py.str_int (length chunks) +:+ " chunks.".
Definition updated_line : string :=
  "Base de datos vectorial actualizada con los nuevos chunks.".
Definition removed_line (path : string) : string :=
  "Archivo temporal eliminado: " +:+ path.
Definition failed_line (e : exn) : string :=
  "Error procesando el archivo PDF: " +:+ str_exn e.
Definition loading_line (file_path : string) : string :=
  "Cargando archivo PDF desde: " +:+ file_path.
Definition path_failed_line (e : exn) : string :=
  "Error procesando el archivo PDF desde la ruta: " +:+ str_exn e.

End WithServices.
End pdf_service.

(** ** [core/rag_chain.py] *)

Module rag_chain.
Section WithServices.
Context (svc : Services).

(** The ranking of the stored entries for a question: [a] is at least as
    near as [b]. *)
Definition nearer (question : string) (a b : Document) : Prop :=
  (distance svc question (page_content a)
   ≤ distance svc question (page_content b))%nat.

#[export] Instance nearer_dec question a b : Decision (nearer question a b).
Proof. unfold nearer. apply _. Defined.

(** Modelled from the spec: the nearest-neighbour query of the external
    vector store ("returning the k closest stored vectors to a query vector
    by a similarity metric").  The entries are ranked by the distance of
    their text to the question and the first [k] are returned; a store with
    fewer than [k] entries returns them all. *)
Definition similarity_search (k : nat) (question : string)
    (entries : list Document) : list Document :=
  take k (merge_sort (nearer question) entries).

(** [retriever = vector_store_instance.as_retriever(search_kwargs={'k': 3})],
    invoked on a question. *)
Definition retriever (orc : Oracle) (question : string)
  : M World (list Document) :=
  call_out (EmbedQuery question);;
  match store_read orc with
  | Some e => raise e
  | None => entries ← gets index; mret (similarity_search 3 question entries)
  end.

(** The lines of [prompt_template] above the label [Contexto:]. *)
Definition instruction_lines : list string := [
  "";
  "Eres un asistente de inteligencia artificial amigable y servicial, especializado en responder ";
  "preguntas sobre el menú de un restaurante. Tu objetivo es proporcionar respuestas claras, ";
  "concisas y precisas, basándote únicamente en el contexto que se te proporciona a continuación.";
  "";
  "Si la información para responder la pregunta no se encuentra en el contexto, debes indicar ";
  "respetuosamente que no tienes la información solicitada. No intentes inventar una respuesta.";
  ""
].

Definition prompt_template : string :=
  Py.join Py.nl (instruction_lines ++ [
    "Contexto:";
    "{context}";
    "";
    "Pregunta:";
    "{question}";
    "";
    "Respuesta:";
    ""
  ]).

(** The text the template becomes once [context_text] and [question] stand
    where the two placeholders were. *)
Definition layout (context_text question : string) : string :=
  Py.join Py.nl (instruction_lines ++ [
    "Contexto:";
    context_text;
    "";
    "Pregunta:";
    question;
    "";
    "Respuesta:";
    ""
  ]).

(** The prompt in the words of the specification: the context is the
    concatenation of the texts of the retrieved chunks. *)
Definition prompt_as_stated (context : list Document) (question : string)
  : string :=
  layout (Py.join "" (map page_content context)) question.

(** The f-string formatter of [ChatPromptTemplate]: every [{name}] of the
    template is replaced by [str] of the value bound to [name]; a name that
    is not bound raises [KeyError]. [name] is [Some] of the characters read
    since an opening brace. *)
Fixpoint format_from (kwargs : list (string * string)) (name : option string)
    (template : string) : Result string :=
  match template with
  | EmptyString =>
      match name with
      | None => Ok ""
      | Some _ => Raise (Error "expected '}' before end of string")
      end
  | String c rest =>
      match name with
      | None =>
          if Ascii.eqb c "{"%char then format_from kwargs (Some "") rest
          else match format_from kwargs None rest with
               | Ok s => Ok (String c s)
               | Raise e => Raise e
               end
      | Some n =>
          if Ascii.eqb c "}"%char then
            match List.find (fun kv => String.eqb (fst kv) n) kwargs with
            | Some kv =>
                match format_from kwargs None rest with
                | Ok s => Ok (snd kv +:+ s)
                | Raise e => Raise e
                end
            | None => Raise (Error n)
            end
          else format_from kwargs (Some (n +:+ String c "")) rest
      end
  end.

(** [prompt.invoke({"context": docs, "question": question})]: the context
    is the list of retrieved documents, formatted by [str]. *)
Definition prompt (context : list Document) (question : string) : Result string :=
  format_from [("context", Py.str_list (map (repr_doc svc) context));
               ("question", question)]
              None prompt_template.

Definition lift_result {S A} (r : Result A) : M S A := fun s => (r, s).

(** [llm.invoke(prompt)] followed by the output parser. *)
Definition llm (orc : Oracle) (text : string) : M World string :=
  call_out (Completion text);;
  lift_result (llm_reply orc text).

(** [rag_chain.invoke(question)] for
    [{"context": retriever, "question": RunnablePassthrough()}
     | prompt | llm | output_parser]. *)
Definition rag_chain (orc : Oracle) (question : string) : M World string :=
  context ← retriever orc question;
  text ← lift_result (prompt context question);
  llm orc text.

End WithServices.
End rag_chain.

(** ** [routes/chat.py] *)

Module chat.
Section WithServices.
Context (svc : Services).

Record ChatRequest : Type := { question : string }.
Record ChatResponse : Type := { answer : string }.

Definition HTTP_400_BAD_REQUEST : nat := 400.
Definition HTTP_500_INTERNAL_SERVER_ERROR : nat := 500.

Definition chat_failed (e : exn) : string :=
  "Ocurrió un error al procesar la pregunta: " +:+ str_exn e.

Definition handle_chat (orc : Oracle) (request : ChatRequest)
  : M World ChatResponse :=
  try_except
    (reply ← rag_chain.rag_chain svc orc (question request);
     mret {| answer := reply |})
    (fun e =>
       print ("Error en el endpoint /chat: " +:+ str_exn e);;
       raise (HTTPException HTTP_500_INTERNAL_SERVER_ERROR (chat_failed e))).

(** The bodies of the responses of [upload_pdf]. *)
Definition invalid_format : string :=
  "Formato de archivo no válido. Por favor, sube un PDF.".
Definition upload_done : string :=
  "Nuevo PDF procesado y base de datos vectorial actualizada exitosamente.".
Definition upload_failed (e : exn) : string :=
  "Ocurrió un error al procesar el archivo PDF: " +:+ str_exn e.

(** Returns the value of the ["message"] key of the response. *)
Definition upload_pdf (orc : Oracle) (upload : UploadFile) : M World string :=
  if bool_decide (content_type upload ≠ Some "application/pdf") then
    raise (HTTPException HTTP_400_BAD_REQUEST invalid_format)
  else
    try_except
      (pdf_service.process_and_update_vector_store svc orc upload;;
       mret upload_done)
      (fun e =>
         print ("Error en el endpoint /upload-pdf: " +:+ str_exn e);;
         raise (HTTPException HTTP_500_INTERNAL_SERVER_ERROR (upload_failed e))).

End WithServices.
End chat.

(** ** [main.py] *)

Module main.
Section WithServices.
Context (svc : Services).

Record NotificationRequest : Type := { title : string; body : string }.
Record FcmTokenRequest : Type := { token : string }.

(** [list(fcm_tokens)]. *)
Definition token_list (w : World) : list string := elements (fcm_tokens w).

(** [str(xs)] for a list of [str]. *)
Definition str_tokens (xs : list string) : string :=
  Py.str_list (map (repr_str svc) xs).

Definition register_fcm_token (request : FcmTokenRequest) : M World string :=
  known ← gets (fun w => bool_decide (token request ∈ fcm_tokens w));
  (if (known : bool) then mret tt
   else
     modify (fun w => set_fcm_tokens (fcm_tokens w ∪ {[token request]}) w);;
     print ("Token FCM registrado: " +:+ token request);;
     tokens ← gets token_list;
     print ("Tokens actuales: " +:+ str_tokens tokens));;
  mret "Token FCM registrado con éxito".

(** [messaging.MulticastMessage(notification=..., tokens=tokens)]: the
    constructor refuses more than 500 tokens with a [ValueError]. *)
Definition too_many_tokens : exn :=
  Error "MulticastMessage.tokens must not contain more than 500 tokens.".

Definition MulticastMessage (tokens : list string) : M World unit :=
  if bool_decide (500 < length tokens)%nat then raise too_many_tokens
  else mret tt.

(** [messaging.send_multicast(message)]. *)
Definition send_multicast (orc : Oracle) (tokens : list string)
    (request : NotificationRequest) : M World (list bool) :=
  call_out (SendMulticast tokens (title request) (body request));;
  rag_chain.lift_result (fcm_reply orc tokens).

Definition success_count (responses : list bool) : nat :=
  length (filter (fun ok => ok = true) responses).
Definition failure_count (responses : list bool) : nat :=
  length (filter (fun ok => ok = false) responses).

(** The loop over [enumerate(response.responses)], from position [i]:
    [list(fcm_tokens)[i]] raises [IndexError] beyond the end of the list. *)
Fixpoint failed_from (tokens : list string) (i : nat) (responses : list bool)
  : Result (list string) :=
  match responses with
  | [] => Ok []
  | ok :: rest =>
      if ok then failed_from tokens (S i) rest
      else match tokens !! i with
           | None => Raise (Error "list index out of range")
           | Some t =>
               match failed_from tokens (S i) rest with
               | Ok ts => Ok (t :: ts)
               | Raise e => Raise e
               end
           end
  end.

Definition send_notification_to_all (orc : Oracle) (request : NotificationRequest)
  : M World string :=
  empty ← gets (fun w => bool_decide (fcm_tokens w = ∅));
  if (empty : bool) then
    raise (HTTPException 404 "No hay tokens FCM registrados.")
  else
    tokens ← gets token_list;
    MulticastMessage tokens;;
    try_except
      (responses ← send_multicast orc tokens request;
       let summary :=
         "Notificaciones enviadas. Éxitos: " +:+ Py.str_int (success_count responses)
         +:+ ", Fallos: " +:+ Py.str_int (failure_count responses) in
       print summary;;
       (if bool_decide (0 < failure_count responses)%nat then
          current ← gets token_list;
          failed_tokens ← rag_chain.lift_result (failed_from current 0 responses);
          print ("Tokens con error: " +:+ str_tokens failed_tokens)
        else mret tt);;
       mret summary)
      (fun e =>
         print ("Error al enviar las notificaciones: " +:+ str_exn e);;
         raise (HTTPException 500
                  ("Error al enviar las notificaciones: " +:+ str_exn e))).

Definition health_check : M World (string * string) :=
  mret ("ok", "Servidor funcionando correctamente.").

(** The start-up half of [lifespan]. *)
Definition lifespan (orc : Oracle) : M World unit :=
  print "Iniciando la aplicación...";;
  match firebase_init orc with
  | None => print "Firebase Admin SDK inicializado correctamente."
  | Some e => print ("Error al inicializar Firebase Admin SDK: " +:+ str_exn e)
  end;;
  let pdf_path := "app/data/menu.pdf" in
  present ← pdf_service.os_path_exists pdf_path;
  if (present : bool) then
    print ("Procesando el archivo PDF: " +:+ pdf_path);;
    try_except
      (pdf_service.process_pdf_from_path svc orc pdf_path;;
       print "PDF procesado y cargado en la base de datos vectorial.")
      (fun e => print ("Error al procesar el PDF durante el inicio: " +:+ str_exn e))
  else
    print ("Advertencia: No se encontró el archivo PDF en " +:+ pdf_path +:+
           ". El chatbot podría no tener contexto.").

End WithServices.
End main.

(** ** The application as a sequence of operations *)

(** One operation of the running process, with what the outside world
    answers while it runs. *)
Inductive Op : Type :=
| GetVectorStore (orc : Oracle)
| Lifespan (orc : Oracle)
| HandleChat (orc : Oracle) (request : chat.ChatRequest)
| UploadPdf (orc : Oracle) (upload : UploadFile)
| ProcessPdfFromPath (orc : Oracle) (file_path : string)
| RegisterFcmToken (request : main.FcmTokenRequest)
| SendNotification (orc : Oracle) (request : main.NotificationRequest)
| HealthCheck.

Definition state_after {A} (m : M World A) (w : World) : World := snd (m w).

(** The two sources of the ingestion pipeline: an upload stream and a path. *)
Inductive Source : Type :=
| FromUpload (upload : UploadFile)
| FromPath (file_path : string).

Definition ingest (svc : Services) (orc : Oracle) (src : Source) : M World unit :=
  match src with
  | FromUpload upload => pdf_service.process_and_update_vector_store svc orc upload
  | FromPath file_path => pdf_service.process_pdf_from_path svc orc file_path
  end.

(** The bytes of the PDF that an ingestion started in [w] is given. *)
Definition source_bytes (src : Source) (w : World) : option (list byte) :=
  match src with
  | FromUpload upload => Some (file upload)
  | FromPath file_path => files w !! file_path
  end.

Definition run_op (settings : Settings) (svc : Services) (op : Op) (w : World)
  : World :=
  match op with
  | GetVectorStore orc => state_after (vector_store.get_vector_store settings orc) w
  | Lifespan orc => state_after (main.lifespan svc orc) w
  | HandleChat orc request => state_after (chat.handle_chat svc orc request) w
  | UploadPdf orc upload => state_after (chat.upload_pdf svc orc upload) w
  | ProcessPdfFromPath orc path =>
      state_after (pdf_service.process_pdf_from_path svc orc path) w
  | RegisterFcmToken request => state_after (main.register_fcm_token svc request) w
  | SendNotification orc request =>
      state_after (main.send_notification_to_all svc orc request) w
  | HealthCheck => state_after main.health_check w
  end.

Definition run_ops (settings : Settings) (svc : Services) (ops : list Op)
    (w : World) : World :=
  fold_left (fun acc op => run_op settings svc op acc) ops w.

(** ** A small concrete deployment, used to run the handlers *)

Module demo.

Definition settings : Settings :=
  {| GOOGLE_API_KEY := "test-key";
     CHROMA_PERSIST_DIR := "./chroma_db";
     MODEL_NAME := "gemini-1.5-flash";
     EMBEDDING_MODEL_NAME := "models/embedding-001" |}.

(** A toy file format: after the four bytes of [%PDF], every byte is one
    page, blank for a space and holding the menu text otherwise; anything
    else is rejected by the extractor. *)
Definition menu_text : string := "Menu: Pizza $10, Pasta $12".
Definition menu_pdf : list byte := [x25; x50; x44; x46; x31].
Definition two_page_pdf : list byte := [x25; x50; x44; x46; x31; x32].
Definition not_a_pdf : list byte := [x68; x69].

Definition page_of_byte (b : byte) : string :=
  match b with
  | x20 => ""
  | _ => menu_text
  end.

Definition svc : Services :=
  {| extract_pages data :=
       match data with
       | x25 :: x50 :: x44 :: x46 :: rest => Ok (map page_of_byte rest)
       | _ => Raise (Error "invalid pdf header")
       end;
     split_text chunk_size chunk_overlap text :=
       if (String.length text =? 0)%nat then [] else [text];
     distance question text :=
       (String.length question - String.length text)
       + (String.length text - String.length question);
     repr_str s := "'" +:+ s +:+ "'";
     repr_doc d := "Document(page_content='" +:+ page_content d +:+ "')" |}.

(** Every service answers. *)
Definition calm : Oracle :=
  {| tmp_create := Ok "/tmp/tmpk3x9.pdf";
     tmp_write := None;
     store_write := None;
     store_read := None;
     llm_reply text := Ok "Pizza: $10";
     fcm_reply tokens := Ok (map (fun _ => true) tokens);
     firebase_init := None |}.

(** The temporary file is created but the disk is full when it is written. *)
Definition disk_full : Oracle :=
  {| tmp_create := Ok "/tmp/tmpk3x9.pdf";
     tmp_write := Some (Error "[Errno 28] No space left on device");
     store_write := None;
     store_read := None;
     llm_reply text := Ok "Pizza: $10";
     fcm_reply tokens := Ok (map (fun _ => true) tokens);
     firebase_init := None |}.

(** The vector store cannot be written. *)
Definition store_down : Oracle :=
  {| tmp_create := Ok "/tmp/tmpk3x9.pdf";
     tmp_write := None;
     store_write := Some (Error "embedding service unreachable");
     store_read := None;
     llm_reply text := Ok "Pizza: $10";
     fcm_reply tokens := Ok (map (fun _ => true) tokens);
     firebase_init := None |}.

Definition upload_of (ctype : string) (data : list byte) : UploadFile :=
  {| filename := "menu.pdf"; content_type := Some ctype; file := data |}.

(** A process that has not started yet, on a machine without a store. *)
Definition blank : World :=
  {| chroma := NoDir; files := ∅; fcm_tokens := ∅; net := []; stdout := [] |}.

(** The store right after its creation: the bootstrap text only. *)
Definition bootstrapped : World :=
  {| chroma := ChromaDir [ {| page_content := vector_store.bootstrap_text;
                              metadata := None |} ];
     files := ∅; fcm_tokens := ∅; net := []; stdout := [] |}.

End demo.

(** ** [core/config.py] *)

Module config.
Section WithEnvironment.
Context {Env : Type}.

(** [Settings()]: the four fields read from [.env] and the environment, or
    the validation error for a field that is absent. *)
Context (Settings_init : Env -> Result Settings).

(** The environment of the process, the single slot of the [lru_cache] of
    [get_settings] and the number of times [Settings()] was evaluated. *)
Record Process : Type := {
  environ : Env;
  cache : option Settings;
  inits : nat
}.

(** [@lru_cache def get_settings(): return Settings()]: the value of the
    first call that returns is kept; a call that raises stores nothing. *)
Definition get_settings : M Process Settings :=
  fun p => match cache p with
           | Some settings => (Ok settings, p)
           | None =>
               match Settings_init (environ p) with
               | Ok settings =>
                   (Ok settings, {| environ := environ p;
                                    cache := Some settings;
                                    inits := S (inits p) |})
               | Raise e =>
                   (Raise e, {| environ := environ p;
                                cache := None;
                                inits := S (inits p) |})
               end
           end.

(** The environment changes under the running process. *)
Definition setenv (env : Env) : M Process unit :=
  modify (fun p => {| environ := env; cache := cache p; inits := inits p |}).

(** The results of calling [get_settings] once after each change of the
    environment, in order. *)
Fixpoint replay (envs : list Env) (p : Process)
  : list (Result Settings) * Process :=
  match envs with
  | [] => ([], p)
  | env :: rest =>
      let '(r, p1) := (setenv env;; get_settings) p in
      let '(rs, p2) := replay rest p1 in
      (r :: rs, p2)
  end.

End WithEnvironment.
End config.

(** ** What the notification handler reports *)

Module notify.

(** The tokens paired with a failed response, in order. *)
Definition failed_at (tokens : list string) (responses : list bool) : list string :=
  omap (fun '(t, ok) => if (ok : bool) then None else Some t) (zip tokens responses).

(** The message of a fan-out that was answered. *)
Definition summary_of (responses : list bool) : string :=
  "Notificaciones enviadas. Éxitos: " +:+ Py.str_int (main.success_count responses)
  +:+ ", Fallos: " +:+ Py.str_int (main.failure_count responses).

End notify.

(** ** Further fixtures *)

Module scenario.

(** The bootstrapped machine with the menu at the path [lifespan] reads. *)
Definition with_menu : World :=
  {| chroma := chroma demo.bootstrapped;
     files := {[ "app/data/menu.pdf" := demo.menu_pdf ]};
     fcm_tokens := ∅;
     net := [];
     stdout := [] |}.

(** Two devices are registered. *)
Definition two_devices : World :=
  {| chroma := chroma demo.bootstrapped;
     files := ∅;
     fcm_tokens := {[ "device-1"; "device-2" ]};
     net := [];
     stdout := [] |}.

(** A store of five entries, the farthest from a short question first. *)
Definition stocked : World :=
  {| chroma :=
       ChromaDir
         [vector_store.bootstrap_document;
          {| page_content := demo.menu_text; metadata := None |};
          {| page_content := "Pizza $10"; metadata := None |};
          {| page_content := "Pizza"; metadata := None |};
          {| page_content := "Pizza!"; metadata := None |}];
     files := ∅;
     fcm_tokens := ∅;
     net := [];
     stdout := [] |}.

(** 501 devices are registered. *)
Definition crowd : World :=
  {| chroma := chroma demo.bootstrapped;
     files := ∅;
     fcm_tokens := list_to_set ((fun n => "device-" +:+ pretty n) <$> seq 0 501);
     net := [];
     stdout := [] |}.

(** The push service answers and reports a failure for every token. *)
Definition rejecting : Oracle :=
  {| tmp_create := Ok "/tmp/tmpk3x9.pdf";
     tmp_write := None;
     store_write := None;
     store_read := None;
     llm_reply text := Ok "Pizza: $10";
     fcm_reply tokens := Ok (map (fun _ => false) tokens);
     firebase_init := None |}.

(** The vector store cannot be read. *)
Definition store_unreadable : Oracle :=
  {| tmp_create := Ok "/tmp/tmpk3x9.pdf";
     tmp_write := None;
     store_write := None;
     store_read := Some (Error "collection unreachable");
     llm_reply text := Ok "Pizza: $10";
     fcm_reply tokens := Ok (map (fun _ => true) tokens);
     firebase_init := None |}.

(** A PDF whose only page is blank. *)
Definition blank_pdf : list byte := [x25; x50; x44; x46; x20].

(** The menu path holds bytes that are not a PDF. *)
Definition with_garbage_menu : World :=
  {| chroma := chroma demo.bootstrapped;
     files := {[ "app/data/menu.pdf" := demo.not_a_pdf ]};
     fcm_tokens := ∅;
     net := [];
     stdout := [] |}.

(** The push service cannot be reached. *)
Definition push_down : Oracle :=
  {| tmp_create := Ok "/tmp/tmpk3x9.pdf";
     tmp_write := None;
     store_write := None;
     store_read := None;
     llm_reply text := Ok "Pizza: $10";
     fcm_reply tokens := Raise (Error "The default Firebase app does not exist.");
     firebase_init := Some (Error "No such file: app/serviceAccountKey.json") |}.

(** The chat model refuses the request. *)
Definition quota_exhausted : Oracle :=
  {| tmp_create := Ok "/tmp/tmpk3x9.pdf";
     tmp_write := None;
     store_write := None;
     store_read := None;
     llm_reply text := Raise (Error "429 Resource has been exhausted");
     fcm_reply tokens := Ok (map (fun _ => true) tokens);
     firebase_init := None |}.

(** A toy reading of the environment: a list of bindings, of which the four
    required names must be present. *)
Definition settings_of (env : list (string * string)) : Result Settings :=
  let get name := snd <$> List.find (fun kv => String.eqb (fst kv) name) env in
  match get "GOOGLE_API_KEY", get "CHROMA_PERSIST_DIR",
        get "MODEL_NAME", get "EMBEDDING_MODEL_NAME" with
  | Some k, Some d, Some m, Some e =>
      Ok {| GOOGLE_API_KEY := k; CHROMA_PERSIST_DIR := d;
            MODEL_NAME := m; EMBEDDING_MODEL_NAME := e |}
  | _, _, _, _ => Raise (Error "validation error for Settings: Field required")
  end.

Definition full_env : list (string * string) :=
  [("GOOGLE_API_KEY", "test-key"); ("CHROMA_PERSIST_DIR", "./chroma_db");
   ("MODEL_NAME", "gemini-1.5-flash");
   ("EMBEDDING_MODEL_NAME", "models/embedding-001")].

End scenario.

(** * Properties *)

(** ** The monad *)

Ltac unfold_monad :=
  unfold print, call_out, rag_chain.lift_result in *;
  unfold mbind, M_bind, bind, mret, M_ret, ret, raise, try_except, try_finally,
    gets, modify in *.

Lemma bind_ok {S A B} (m : M S A) (k : A -> M S B) s a s' :
  m s = (Ok a, s') -> (m ≫= k) s = k a s'.
Proof. unfold_monad. intros ->. reflexivity. Qed.

Lemma bind_raise {S A B} (m : M S A) (k : A -> M S B) s e s' :
  m s = (Raise e, s') -> (m ≫= k) s = (Raise e, s').
Proof. unfold_monad. intros ->. reflexivity. Qed.

Lemma try_except_ok {S A} (m : M S A) h s a s' :
  m s = (Ok a, s') -> try_except m h s = (Ok a, s').
Proof. unfold try_except. intros ->. reflexivity. Qed.

Lemma try_except_raise {S A} (m : M S A) h s e s' :
  m s = (Raise e, s') -> try_except m h s = h e s'.
Proof. unfold try_except. intros ->. reflexivity. Qed.

(** The test of the store on the size of a batch. *)
Lemma batch_not_empty {A} (l : list A) :
  l ≠ [] -> (length l =? 0)%nat = false.
Proof. by destruct l. Qed.

Lemma nil_or_not {A} (l : list A) : l = [] \/ l ≠ [].
Proof. destruct l; [by left|by right]. Qed.

(** ** The handlers on concrete requests *)

(** A one-page PDF uploaded to the bootstrapped store: one chunk is appended,
    the temporary file is gone and the count went to the output. *)
Example upload_of_menu :
  chat.upload_pdf demo.svc demo.calm
    (demo.upload_of "application/pdf" demo.menu_pdf) demo.bootstrapped
  = (Ok chat.upload_done,
     {| chroma :=
          ChromaDir
            [vector_store.bootstrap_document;
             {| page_content := demo.menu_text;
                metadata := Some {| source := "/tmp/tmpk3x9.pdf"; page := 0 |} |}];
        files := ∅;
        fcm_tokens := ∅;
        net := [EmbedDocuments [demo.menu_text]];
        stdout := ["Archivo PDF temporal guardado en: /tmp/tmpk3x9.pdf";
                   "PDF dividido en 1 chunks.";
                   "Base de datos vectorial actualizada con los nuevos chunks.";
                   "Archivo temporal eliminado: /tmp/tmpk3x9.pdf"] |}).
Proof. vm_compute. reflexivity. Qed.

(** Bytes that are not a PDF, sent as [application/pdf]: the extraction error
    reaches the client as HTTP 500 and the index is the one of before. *)
Example upload_of_garbage :
  let '(r, w') :=
    chat.upload_pdf demo.svc demo.calm
      (demo.upload_of "application/pdf" demo.not_a_pdf) demo.bootstrapped in
  r = Raise (HTTPException 500
               "Ocurrió un error al procesar el archivo PDF: invalid pdf header")
  /\ index w' = index demo.bootstrapped
  /\ files w' = ∅
  /\ net w' = [].
Proof. vm_compute. done. Qed.

(** The store created on a machine that has none. *)
Example store_created_from_nothing :
  vector_store.get_vector_store demo.settings demo.calm demo.blank
  = (Ok tt,
     {| chroma := ChromaDir [vector_store.bootstrap_document];
        files := ∅;
        fcm_tokens := ∅;
        net := [EmbedDocuments [vector_store.bootstrap_text]];
        stdout := ["Creando nueva ChromaDB en: ./chroma_db"] |}).
Proof. vm_compute. reflexivity. Qed.

(** The prompt for one retrieved chunk. *)
Example prompt_of_menu_chunk :
  rag_chain.prompt demo.svc
    [ {| page_content := demo.menu_text; metadata := None |} ]
    "What is the price of pizza?"
  = Ok (Py.join Py.nl
          (rag_chain.instruction_lines ++
           ["Contexto:";
            "[Document(page_content='Menu: Pizza $10, Pasta $12')]";
            "";
            "Pregunta:";
            "What is the price of pizza?";
            "";
            "Respuesta:";
            ""])).
Proof. vm_compute. reflexivity. Qed.

(** Two registrations of one token, then a notification to it. *)
Example register_twice_then_notify :
  let request := {| main.token := "device-1" |} in
  let once := state_after (main.register_fcm_token demo.svc request) demo.bootstrapped in
  let twice := state_after (main.register_fcm_token demo.svc request) once in
  main.token_list twice = ["device-1"]
  /\ stdout twice = ["Token FCM registrado: device-1";
                     "Tokens actuales: ['device-1']"]
  /\ main.send_notification_to_all demo.svc demo.calm
       {| main.title := "Hoy"; main.body := "Pizza 2x1" |} twice
     = (Ok "Notificaciones enviadas. Éxitos: 1, Fallos: 0",
        set_stdout (stdout twice ++ ["Notificaciones enviadas. Éxitos: 1, Fallos: 0"])
          (set_net [SendMulticast ["device-1"] "Hoy" "Pizza 2x1"] twice)).
Proof. vm_compute. done. Qed.

(** ** Ingestion from an upload stream, case by case *)

Section IngestionUpload.
Context (svc : Services) (orc : Oracle) (upload : UploadFile) (w : World).

Import pdf_service.

Ltac run_upload :=
  unfold process_and_update_vector_store, call_with_locals, in_world,
    assign_tmp_file_path, NamedTemporaryFile, tmp_file_write, PyPDFLoader_load,
    os_path_exists, os_remove, vector_store.add_documents, vector_store.upsert;
  unfold_monad; simpl.

Lemma upload_tmp_create_fails e :
  tmp_create orc = Raise e ->
  process_and_update_vector_store svc orc upload w
  = (Raise e, set_stdout (stdout w ++ [failed_line e]) w).
Proof. intros Hc. run_upload. rewrite Hc. reflexivity. Qed.

Lemma upload_tmp_write_fails path e :
  tmp_create orc = Ok path ->
  tmp_write orc = Some e ->
  process_and_update_vector_store svc orc upload w
  = (Raise e,
     {| chroma := chroma w;
        files := <[path := []]> (files w);
        fcm_tokens := fcm_tokens w;
        net := net w;
        stdout := stdout w ++ [failed_line e] |}).
Proof. intros Hc Hw. run_upload. rewrite Hc. simpl. rewrite Hw. reflexivity. Qed.

Lemma upload_extraction_fails path e :
  tmp_create orc = Ok path ->
  tmp_write orc = None ->
  extract_pages svc (file upload) = Raise e ->
  process_and_update_vector_store svc orc upload w
  = (Raise e,
     {| chroma := chroma w;
        files := delete path (<[path := file upload]> (<[path := []]> (files w)));
        fcm_tokens := fcm_tokens w;
        net := net w;
        stdout := stdout w ++ [saved_line path; failed_line e; removed_line path] |}).
Proof.
  intros Hc Hw He. run_upload. rewrite Hc. simpl. rewrite Hw. simpl.
  rewrite !lookup_insert_eq, He. simpl.
  rewrite !lookup_insert_eq. simpl. 
  rewrite <- !app_assoc. reflexivity.
Qed.

Lemma upload_empty_batch path pages :
  tmp_create orc = Ok path ->
  tmp_write orc = None ->
  extract_pages svc (file upload) = Ok pages ->
  chunks_of svc path pages = [] ->
  process_and_update_vector_store svc orc upload w
  = (Raise vector_store.empty_batch,
     {| chroma := chroma w;
        files := delete path (<[path := file upload]> (<[path := []]> (files w)));
        fcm_tokens := fcm_tokens w;
        net := net w;
        stdout := stdout w ++ [saved_line path; split_line [];
                               failed_line vector_store.empty_batch;
                               removed_line path] |}).
Proof.
  intros Hc Hw He Hnil. unfold chunks_of in Hnil.
  run_upload. rewrite Hc. simpl. rewrite Hw. simpl.
  rewrite !lookup_insert_eq, He. simpl. rewrite Hnil. simpl.
  rewrite !lookup_insert_eq. simpl.
  rewrite <- !app_assoc. reflexivity.
Qed.

Lemma upload_store_write_fails path pages e :
  tmp_create orc = Ok path ->
  tmp_write orc = None ->
  extract_pages svc (file upload) = Ok pages ->
  chunks_of svc path pages ≠ [] ->
  store_write orc = Some e ->
  process_and_update_vector_store svc orc upload w
  = (Raise e,
     {| chroma := chroma w;
        files := delete path (<[path := file upload]> (<[path := []]> (files w)));
        fcm_tokens := fcm_tokens w;
        net := net w ++ [EmbedDocuments (map page_content (chunks_of svc path pages))];
        stdout := stdout w ++ [saved_line path; split_line (chunks_of svc path pages);
                               failed_line e; removed_line path] |}).
Proof.
  intros Hc Hw He Hne Hs. apply batch_not_empty in Hne. unfold chunks_of in Hne.
  run_upload. rewrite Hc. simpl. rewrite Hw. simpl.
  rewrite !lookup_insert_eq, He. simpl. rewrite Hne, Hs. simpl.
  rewrite !lookup_insert_eq. simpl.
  rewrite <- !app_assoc. reflexivity.
Qed.

Lemma upload_succeeds path pages :
  tmp_create orc = Ok path ->
  tmp_write orc = None ->
  extract_pages svc (file upload) = Ok pages ->
  chunks_of svc path pages ≠ [] ->
  store_write orc = None ->
  process_and_update_vector_store svc orc upload w
  = (Ok tt,
     {| chroma := ChromaDir (index w ++ chunks_of svc path pages);
        files := delete path (<[path := file upload]> (<[path := []]> (files w)));
        fcm_tokens := fcm_tokens w;
        net := net w ++ [EmbedDocuments (map page_content (chunks_of svc path pages))];
        stdout := stdout w ++ [saved_line path; split_line (chunks_of svc path pages);
                               updated_line; removed_line path] |}).
Proof.
  intros Hc Hw He Hne Hs. apply batch_not_empty in Hne. unfold chunks_of in Hne.
  run_upload. rewrite Hc. simpl. rewrite Hw. simpl.
  rewrite !lookup_insert_eq, He. simpl. rewrite Hne, Hs. simpl.
  rewrite !lookup_insert_eq. simpl.
  rewrite <- !app_assoc. reflexivity.
Qed.
End IngestionUpload.

(** ** Ingestion from a path, case by case *)

Section IngestionPath.
Context (svc : Services) (orc : Oracle) (file_path : string) (w : World).

Import pdf_service.

Ltac run_path :=
  unfold process_pdf_from_path, PyPDFLoader_load, vector_store.add_documents,
    vector_store.upsert;
  unfold_monad; simpl.

Lemma path_extraction_fails data e :
  files w !! file_path = Some data ->
  extract_pages svc data = Raise e ->
  process_pdf_from_path svc orc file_path w
  = (Raise e, set_stdout (stdout w ++ [loading_line file_path; path_failed_line e]) w).
Proof.
  intros Hf He. run_path. rewrite Hf, He. simpl.
  rewrite <- !app_assoc. reflexivity.
Qed.

Lemma path_missing :
  files w !! file_path = None ->
  process_pdf_from_path svc orc file_path w
  = (Raise (Error ("File path " +:+ file_path +:+ " is not a valid file or url")),
     set_stdout
       (stdout w ++ [loading_line file_path;
                     path_failed_line
                       (Error ("File path " +:+ file_path +:+
                               " is not a valid file or url"))]) w).
Proof.
  intros Hf. run_path. rewrite Hf. simpl.
  rewrite <- !app_assoc. reflexivity.
Qed.

Lemma path_empty_batch data pages :
  files w !! file_path = Some data ->
  extract_pages svc data = Ok pages ->
  chunks_of svc file_path pages = [] ->
  process_pdf_from_path svc orc file_path w
  = (Raise vector_store.empty_batch,
     set_stdout (stdout w ++ [loading_line file_path; split_line [];
                              path_failed_line vector_store.empty_batch]) w).
Proof.
  intros Hf He Hnil. unfold chunks_of in Hnil.
  run_path. rewrite Hf, He. simpl. rewrite Hnil. simpl.
  rewrite <- !app_assoc. reflexivity.
Qed.

Lemma path_store_write_fails data pages e :
  files w !! file_path = Some data ->
  extract_pages svc data = Ok pages ->
  chunks_of svc file_path pages ≠ [] ->
  store_write orc = Some e ->
  process_pdf_from_path svc orc file_path w
  = (Raise e,
     {| chroma := chroma w;
        files := files w;
        fcm_tokens := fcm_tokens w;
        net := net w ++ [EmbedDocuments (map page_content (chunks_of svc file_path pages))];
        stdout := stdout w ++ [loading_line file_path; split_line (chunks_of svc file_path pages);
                               path_failed_line e] |}).
Proof.
  intros Hf He Hne Hs. apply batch_not_empty in Hne. unfold chunks_of in Hne.
  run_path. rewrite Hf, He. simpl. rewrite Hne, Hs. simpl.
  rewrite <- !app_assoc. reflexivity.
Qed.

Lemma path_succeeds data pages :
  files w !! file_path = Some data ->
  extract_pages svc data = Ok pages ->
  chunks_of svc file_path pages ≠ [] ->
  store_write orc = None ->
  process_pdf_from_path svc orc file_path w
  = (Ok tt,
     {| chroma := ChromaDir (index w ++ chunks_of svc file_path pages);
        files := files w;
        fcm_tokens := fcm_tokens w;
        net := net w ++ [EmbedDocuments (map page_content (chunks_of svc file_path pages))];
        stdout := stdout w ++ [loading_line file_path; split_line (chunks_of svc file_path pages);
                               updated_line] |}).
Proof.
  intros Hf He Hne Hs. apply batch_not_empty in Hne. unfold chunks_of in Hne.
  run_path. rewrite Hf, He. simpl. rewrite Hne, Hs. simpl.
  rewrite <- !app_assoc. reflexivity.
Qed.
End IngestionPath.

(** The outcomes of the two ingestion functions, one goal for each. *)
Ltac path_cases svc orc p w :=
  let data := fresh "data" in
  let pages := fresh "pages" in
  let err := fresh "err" in
  let Hf := fresh "Hf" in
  let He := fresh "He" in
  let Hch := fresh "Hch" in
  let Hs := fresh "Hs" in
  destruct (files w !! p) as [data|] eqn:Hf;
  [ destruct (extract_pages svc data) as [pages|err] eqn:He;
    [ destruct (nil_or_not (pdf_service.chunks_of svc p pages)) as [Hch|Hch];
      [ rewrite (path_empty_batch svc orc p w data pages Hf He Hch)
      | destruct (store_write orc) as [err|] eqn:Hs;
        [ rewrite (path_store_write_fails svc orc p w data pages err Hf He Hch Hs)
        | rewrite (path_succeeds svc orc p w data pages Hf He Hch Hs) ] ]
    | rewrite (path_extraction_fails svc orc p w data err Hf He) ]
  | rewrite (path_missing svc orc p w Hf) ].

Ltac upload_cases svc orc upload w :=
  let tmp := fresh "tmp" in
  let pages := fresh "pages" in
  let err := fresh "err" in
  let Hc := fresh "Hc" in
  let Hw := fresh "Hw" in
  let He := fresh "He" in
  let Hch := fresh "Hch" in
  let Hs := fresh "Hs" in
  destruct (tmp_create orc) as [tmp|err] eqn:Hc;
  [ destruct (tmp_write orc) as [err|] eqn:Hw;
    [ rewrite (upload_tmp_write_fails svc orc upload w tmp err Hc Hw)
    | destruct (extract_pages svc (file upload)) as [pages|err] eqn:He;
      [ destruct (nil_or_not (pdf_service.chunks_of svc tmp pages)) as [Hch|Hch];
        [ rewrite (upload_empty_batch svc orc upload w tmp pages Hc Hw He Hch)
        | destruct (store_write orc) as [err|] eqn:Hs;
          [ rewrite (upload_store_write_fails svc orc upload w tmp pages err
                       Hc Hw He Hch Hs)
          | rewrite (upload_succeeds svc orc upload w tmp pages Hc Hw He Hch Hs) ] ]
      | rewrite (upload_extraction_fails svc orc upload w tmp err Hc Hw He) ] ]
  | rewrite (upload_tmp_create_fails svc orc upload w err Hc) ].

Section PathFacts.
Context (svc : Services) (orc : Oracle) (file_path : string) (w : World).

(** Whatever happens, a failed run leaves the index as it was and a
    successful one extends it. *)
Lemma path_index_prefix :
  index w `prefix_of`
    index (state_after (pdf_service.process_pdf_from_path svc orc file_path) w).
Proof.
  unfold state_after. path_cases svc orc file_path w; try done.
  simpl. by apply prefix_app_r.
Qed.

Lemma path_raise_keeps_index e w' :
  pdf_service.process_pdf_from_path svc orc file_path w = (Raise e, w') ->
  index w' = index w.
Proof.
  path_cases svc orc file_path w; intros Heq; by simplify_eq.
Qed.

(** A successful run read the file and stored its chunks. *)
Lemma path_ok_inv w' :
  pdf_service.process_pdf_from_path svc orc file_path w = (Ok tt, w') ->
  exists data pages,
    files w !! file_path = Some data
    /\ extract_pages svc data = Ok pages
    /\ pdf_service.chunks_of svc file_path pages ≠ []
    /\ index w' = index w ++ pdf_service.chunks_of svc file_path pages.
Proof.
  path_cases svc orc file_path w; intros Heq; simplify_eq.
  by eexists _, _.
Qed.
End PathFacts.

(** ** What every run of the upload ingestion guarantees *)

Section IngestionUploadFacts.
Context (svc : Services) (orc : Oracle) (upload : UploadFile) (w : World).
Import pdf_service.

Lemma upload_index_prefix :
  index w `prefix_of`
    index (state_after (process_and_update_vector_store svc orc upload) w).
Proof.
  unfold state_after. upload_cases svc orc upload w; try done.
  simpl. by apply prefix_app_r.
Qed.

Lemma upload_raise_keeps_index e w' :
  process_and_update_vector_store svc orc upload w = (Raise e, w') ->
  index w' = index w.
Proof.
  upload_cases svc orc upload w; intros Heq; by simplify_eq.
Qed.

(** A successful run went through every step. *)
Lemma upload_ok_inv w' :
  process_and_update_vector_store svc orc upload w = (Ok tt, w') ->
  exists path pages,
    tmp_create orc = Ok path /\ tmp_write orc = None /\
    extract_pages svc (file upload) = Ok pages /\ store_write orc = None /\
    index w' = index w ++ chunks_of svc path pages /\
    chunks_of svc path pages ≠ [].
Proof.
  upload_cases svc orc upload w; intros Heq; simplify_eq.
  by eexists _, _.
Qed.

(** Once the bytes are written, no exit leaves the temporary file behind. *)
Lemma upload_removes_tmp_file path :
  tmp_create orc = Ok path ->
  tmp_write orc = None ->
  files (state_after (process_and_update_vector_store svc orc upload) w) !! path = None.
Proof.
  intros Hc Hw. unfold state_after.
  destruct (extract_pages svc (file upload)) as [pages|e1] eqn:He.
  2: { rewrite (upload_extraction_fails _ _ _ _ _ _ Hc Hw He). simpl.
       apply lookup_delete_eq. }
  destruct (nil_or_not (chunks_of svc path pages)) as [Hch|Hch].
  { rewrite (upload_empty_batch _ _ _ _ _ _ Hc Hw He Hch). simpl.
    apply lookup_delete_eq. }
  destruct (store_write orc) as [e1|] eqn:Hs.
  { rewrite (upload_store_write_fails _ _ _ _ _ _ _ Hc Hw He Hch Hs). simpl.
    apply lookup_delete_eq. }
  rewrite (upload_succeeds _ _ _ _ _ _ Hc Hw He Hch Hs). simpl.
  apply lookup_delete_eq.
Qed.
End IngestionUploadFacts.

(** ** The upload endpoint *)

Section UploadEndpoint.
Context (svc : Services) (orc : Oracle) (upload : UploadFile) (w : World).

Lemma upload_pdf_bad_content_type :
  content_type upload ≠ Some "application/pdf" ->
  chat.upload_pdf svc orc upload w
  = (Raise (HTTPException 400 chat.invalid_format), w).
Proof.
  intros Hct. unfold chat.upload_pdf.
  rewrite bool_decide_eq_true_2 by done. reflexivity.
Qed.

Lemma upload_pdf_ok w' :
  content_type upload = Some "application/pdf" ->
  pdf_service.process_and_update_vector_store svc orc upload w = (Ok tt, w') ->
  chat.upload_pdf svc orc upload w = (Ok chat.upload_done, w').
Proof.
  intros Hct Hrun. unfold chat.upload_pdf.
  rewrite bool_decide_eq_false_2 by (intros H; by apply H).
  unfold_monad. rewrite Hrun. reflexivity.
Qed.

Lemma upload_pdf_raise e w' :
  content_type upload = Some "application/pdf" ->
  pdf_service.process_and_update_vector_store svc orc upload w = (Raise e, w') ->
  chat.upload_pdf svc orc upload w
  = (Raise (HTTPException 500 (chat.upload_failed e)),
     set_stdout (stdout w' ++ ["Error en el endpoint /upload-pdf: " +:+ str_exn e]) w').
Proof.
  intros Hct Hrun. unfold chat.upload_pdf.
  rewrite bool_decide_eq_false_2 by (intros H; by apply H).
  unfold_monad. rewrite Hrun. reflexivity.
Qed.

Lemma upload_pdf_index_prefix :
  index w `prefix_of` index (state_after (chat.upload_pdf svc orc upload) w).
Proof.
  unfold state_after.
  destruct (decide (content_type upload = Some "application/pdf")) as [Hct|Hct].
  - pose proof (upload_index_prefix svc orc upload w) as Hp. unfold state_after in Hp.
    destruct (pdf_service.process_and_update_vector_store svc orc upload w)
      as [[[]|e] w'] eqn:Hrun.
    + by rewrite (upload_pdf_ok _ Hct Hrun).
    + by rewrite (upload_pdf_raise _ _ Hct Hrun).
  - by rewrite upload_pdf_bad_content_type.
Qed.
End UploadEndpoint.

(** ** The ingestion contract *)

(** C2. An upload to [/api/upload-pdf] whose content type is not exactly
    [application/pdf] (or is missing) is answered with HTTP 400 and nothing
    else happens: the whole state after the request is the state before it,
    so no chunk is added to the index and no temporary file is created. *)
Theorem upload_pdf_rejects_other_content_types
    (svc : Services) (orc : Oracle) (upload : UploadFile) (w : World) :
  content_type upload ≠ Some "application/pdf" ->
  exists detail w',
    chat.upload_pdf svc orc upload w = (Raise (HTTPException 400 detail), w')
    /\ w' = w /\ index w' = index w /\ files w' = files w.
Proof.
  intros Hct. exists chat.invalid_format, w.
  by rewrite upload_pdf_bad_content_type.
Qed.

(** C2 at a [text/plain] upload against the bootstrapped store. *)
Lemma upload_pdf_rejects_other_content_types_witness :
  exists detail w',
    chat.upload_pdf demo.svc demo.calm (demo.upload_of "text/plain" demo.not_a_pdf)
      demo.bootstrapped
    = (Raise (HTTPException 400 detail), w')
    /\ w' = demo.bootstrapped /\ index w' = index demo.bootstrapped
    /\ files w' = files demo.bootstrapped.
Proof.
  apply (upload_pdf_rejects_other_content_types demo.svc demo.calm
           (demo.upload_of "text/plain" demo.not_a_pdf) demo.bootstrapped).
  simpl. discriminate.
Defined.

(** C1, as amended.  From an upload stream whose temporary file could be
    created and written, and from a path that names a file: when extraction
    fails, its error is the one raised to the caller, the index is unchanged
    and no service is called; when extraction succeeds and the splitter yields
    no chunk, the store refuses the empty batch, an error is raised and the
    index is unchanged; when the batch upsert fails, that error is raised and
    the index is unchanged; otherwise the function returns [None], the
    [N >= 1] chunks of the splitter are appended to the index in one batch,
    by one call that carries exactly their texts, and their number only
    appears in a printed line.  When the temporary file
    cannot be created or written, or the path names no file, an error is
    raised, the index is unchanged and no service is called.  At the endpoint
    a success is the fixed message and a failure is HTTP 500 carrying the
    message of the error. *)
Theorem ingestion_contract
    (svc : Services) (orc : Oracle) (upload : UploadFile) (file_path : string)
    (w : World) :
  (* from an upload stream *)
  (let '(r, w') := pdf_service.process_and_update_vector_store svc orc upload w in
   match tmp_create orc, tmp_write orc with
   | Ok path, None =>
       match extract_pages svc (file upload) with
       | Raise e => r = Raise e /\ index w' = index w /\ net w' = net w
       | Ok pages =>
           let chunks := pdf_service.chunks_of svc path pages in
           match chunks, store_write orc with
           | [], _ => (exists e, r = Raise e) /\ index w' = index w
           | _ :: _, Some e => r = Raise e /\ index w' = index w
           | _ :: _, None =>
               1 <= length chunks
               /\ r = Ok tt
               /\ index w' = index w ++ chunks
               /\ net w' = net w ++ [EmbedDocuments (map page_content chunks)]
               /\ stdout w' = stdout w ++ [pdf_service.saved_line path;
                                           pdf_service.split_line chunks;
                                           pdf_service.updated_line;
                                           pdf_service.removed_line path]
           end
       end
   | _, _ => (exists e, r = Raise e) /\ index w' = index w /\ net w' = net w
   end)
  (* from a path *)
  /\ (let '(r, w') := pdf_service.process_pdf_from_path svc orc file_path w in
      match files w !! file_path with
      | Some data =>
          match extract_pages svc data with
          | Raise e => r = Raise e /\ index w' = index w /\ net w' = net w
          | Ok pages =>
              let chunks := pdf_service.chunks_of svc file_path pages in
              match chunks, store_write orc with
              | [], _ => (exists e, r = Raise e) /\ index w' = index w
              | _ :: _, Some e => r = Raise e /\ index w' = index w
              | _ :: _, None =>
                  1 <= length chunks
                  /\ r = Ok tt
                  /\ index w' = index w ++ chunks
                  /\ net w' = net w ++ [EmbedDocuments (map page_content chunks)]
                  /\ stdout w' = stdout w ++ [pdf_service.loading_line file_path;
                                              pdf_service.split_line chunks;
                                              pdf_service.updated_line]
              end
          end
      | None => (exists e, r = Raise e) /\ index w' = index w /\ net w' = net w
      end)
  (* at the endpoint *)
  /\ (if bool_decide (content_type upload = Some "application/pdf") then
        match pdf_service.process_and_update_vector_store svc orc upload w with
        | (Ok _, w') => chat.upload_pdf svc orc upload w = (Ok chat.upload_done, w')
        | (Raise e, w') =>
            fst (chat.upload_pdf svc orc upload w)
            = Raise (HTTPException 500 (chat.upload_failed e))
            /\ index (snd (chat.upload_pdf svc orc upload w)) = index w
        end
      else True).
Proof.
  split; [|split].
  - upload_cases svc orc upload w; simpl; eauto.
    + rewrite Hch. eauto.
    + destruct (pdf_service.chunks_of svc tmp pages); done.
    + destruct (pdf_service.chunks_of svc tmp pages) as [|chunk chunks];
        [done|]. simpl. split_and!; try done. lia.
  - path_cases svc orc file_path w; simpl; eauto.
    + rewrite Hch. eauto.
    + destruct (pdf_service.chunks_of svc file_path pages); done.
    + destruct (pdf_service.chunks_of svc file_path pages) as [|chunk chunks];
        [done|]. simpl. split_and!; try done. lia.
  - case_bool_decide as Hct; [|done].
    destruct (pdf_service.process_and_update_vector_store svc orc upload w)
      as [[[]|e] w'] eqn:Hrun.
    + by apply upload_pdf_ok.
    + rewrite (upload_pdf_raise _ _ _ _ _ _ Hct Hrun). simpl.
      split; [done|]. by apply upload_raise_keeps_index in Hrun.
Qed.

(** C1 as stated fails on the code.  With the store unreachable, a PDF whose
    extraction succeeds is not followed by any append of one chunk or more;
    when chunks are appended, one for a one-page file and two for a two-page
    file, the caller receives the same value both times, [None] from the
    function and the fixed message from the endpoint: no count; and a PDF
    whose only page is blank passes extraction and appends nothing, the store
    refusing the empty batch. *)
Lemma ingestion_contract_as_stated_fails :
  let up := demo.upload_of "application/pdf" demo.menu_pdf in
  (* extraction succeeds, the store is down: nothing is appended *)
  (extract_pages demo.svc (file up) = Ok [demo.menu_text]
   /\ ~ exists chunks,
         1 <= length chunks
         /\ index (state_after (chat.upload_pdf demo.svc demo.store_down up)
                     demo.bootstrapped)
            = index demo.bootstrapped ++ chunks)
  (* one chunk or two chunks appended: the caller is told the same *)
  /\ (let up2 := demo.upload_of "application/pdf" demo.two_page_pdf in
      let run1 := chat.upload_pdf demo.svc demo.calm up demo.bootstrapped in
      let run2 := chat.upload_pdf demo.svc demo.calm up2 demo.bootstrapped in
      length (index (snd run1)) = 1 + length (index demo.bootstrapped)
      /\ length (index (snd run2)) = 2 + length (index demo.bootstrapped)
      /\ fst run1 = fst run2
      /\ pdf_service.process_and_update_vector_store demo.svc demo.calm up
           demo.bootstrapped
         = (Ok tt, snd run1))
  (* a blank page: extraction succeeds and nothing is appended *)
  /\ (let blank := demo.upload_of "application/pdf" scenario.blank_pdf in
      let run := chat.upload_pdf demo.svc demo.calm blank demo.bootstrapped in
      extract_pages demo.svc (file blank) = Ok [""]
      /\ (exists detail, fst run = Raise (HTTPException 500 detail))
      /\ index (snd run) = index demo.bootstrapped).
Proof.
  split; [split|split].
  - reflexivity.
  - intros (chunks & Hlen & Hidx).
    apply (f_equal length) in Hidx. rewrite length_app in Hidx.
    destruct chunks as [|chunk chunks]; [simpl in Hlen; lia|].
    vm_compute in Hidx. discriminate.
  - vm_compute. done.
  - split_and!; [reflexivity| |reflexivity]. by eexists.
Qed.

(** When [tmp_file.write(file.file.read())] raises, [tmp_file_path] was never
    assigned: the [finally] block skips the removal and the file that
    [NamedTemporaryFile] created stays on disk. *)
Lemma upload_leaks_tmp_file_when_write_fails
    (svc : Services) (orc : Oracle) (upload : UploadFile) (w : World) path e :
  tmp_create orc = Ok path ->
  tmp_write orc = Some e ->
  let '(r, w') := pdf_service.process_and_update_vector_store svc orc upload w in
  r = Raise e /\ files w' !! path = Some [].
Proof.
  intros Hc Hw. rewrite (upload_tmp_write_fails _ _ _ _ _ _ Hc Hw). simpl.
  split; [done|]. apply lookup_insert_eq.
Qed.

(** C3 fails on the code at the write step.  The upload-stream ingestion of a
    PDF, on a machine where the temporary file is created but writing the
    uploaded bytes raises, returns by raising that error while the temporary
    file, absent before the call, is still there after it. *)
Theorem tmp_file_survives_failed_write :
  let up := demo.upload_of "application/pdf" demo.menu_pdf in
  let '(r, w') :=
    pdf_service.process_and_update_vector_store demo.svc demo.disk_full up
      demo.bootstrapped in
  files demo.bootstrapped !! "/tmp/tmpk3x9.pdf" = None
  /\ r = Raise (Error "[Errno 28] No space left on device")
  /\ files w' !! "/tmp/tmpk3x9.pdf" = Some [].
Proof.
  vm_compute. done.
Qed.

(** ** The query pipeline *)

Section QueryPipeline.
Context (svc : Services).

Import rag_chain.

Lemma format_template (context_text question : string) :
  format_from [("context", context_text); ("question", question)] None
    prompt_template
  = Ok (layout context_text question).
Proof. vm_compute. reflexivity. Qed.

Lemma prompt_layout (context : list Document) (question : string) :
  prompt svc context question
  = Ok (layout (Py.str_list (map (repr_doc svc) context)) question).
Proof. unfold prompt. apply format_template. Qed.

Lemma nearer_total question : Total (nearer svc question).
Proof. intros a b. unfold nearer. lia. Qed.

Lemma nearer_trans question : Transitive (nearer svc question).
Proof. intros a b c. unfold nearer. lia. Qed.

Lemma similarity_search_length k question entries :
  length (similarity_search svc k question entries) = k `min` length entries.
Proof.
  unfold similarity_search.
  by rewrite length_take, (Permutation_length (merge_sort_Permutation _ entries)).
Qed.

(** The entries the search leaves out. *)
Lemma similarity_search_split k question entries :
  exists rest,
    similarity_search svc k question entries ++ rest ≡ₚ entries
    /\ forall a b, a ∈ similarity_search svc k question entries -> b ∈ rest ->
                   nearer svc question a b.
Proof.
  unfold similarity_search.
  set (ranked := merge_sort (nearer svc question) entries).
  exists (drop k ranked). split.
  - rewrite take_drop. apply merge_sort_Permutation.
  - intros a b Ha Hb.
    assert (Hs : StronglySorted (nearer svc question) (take k ranked ++ drop k ranked)).
    { rewrite take_drop.
      apply StronglySorted_merge_sort; [apply nearer_trans|apply nearer_total]. }
    eapply StronglySorted_app_1_elem_of; eauto.
Qed.

Lemma retriever_ok orc question w :
  store_read orc = None ->
  retriever svc orc question w
  = (Ok (similarity_search svc 3 question (index w)),
     set_net (net w ++ [EmbedQuery question]) w).
Proof. intros Hr. unfold retriever. unfold_monad. simpl. by rewrite Hr. Qed.

Lemma retriever_raise orc question w e :
  store_read orc = Some e ->
  retriever svc orc question w
  = (Raise e, set_net (net w ++ [EmbedQuery question]) w).
Proof. intros Hr. unfold retriever. unfold_monad. simpl. by rewrite Hr. Qed.

(** What the chain sends out when the store answers. *)
Lemma rag_chain_calls orc question w :
  store_read orc = None ->
  let text := layout (Py.str_list (map (repr_doc svc)
                        (similarity_search svc 3 question (index w)))) question in
  rag_chain svc orc question w
  = (llm_reply orc text,
     set_net (net w ++ [EmbedQuery question; Completion text]) w).
Proof.
  intros Hr. unfold rag_chain. 
  erewrite bind_ok by (by apply retriever_ok).
  rewrite prompt_layout. unfold llm. unfold_monad. simpl.
  by rewrite <- app_assoc.
Qed.

Lemma rag_chain_keeps_chroma orc question w :
  chroma (state_after (rag_chain svc orc question) w) = chroma w.
Proof.
  unfold state_after.
  destruct (store_read orc) as [e|] eqn:Hr.
  - unfold rag_chain. by erewrite bind_raise by (by apply retriever_raise).
  - by rewrite rag_chain_calls.
Qed.
End QueryPipeline.

(** ** The query contract *)

(** C4, as amended.  For every question the chain processes while the store
    answers, the prompt sent to the chat model is, in this order: the fixed
    instruction, the label [Contexto:] followed by [str] of the list of the
    retrieved documents (an opening bracket, the [repr] of each document
    separated by a comma and a space, a closing bracket), the label
    [Pregunta:] followed by the question verbatim, and the label
    [Respuesta:]. *)
Theorem prompt_sent_to_llm
    (svc : Services) (orc : Oracle) (question : string) (w : World) :
  store_read orc = None ->
  exists context,
    fst (rag_chain.retriever svc orc question w) = Ok context
    /\ rag_chain.prompt svc context question
       = Ok (rag_chain.layout (Py.str_list (map (repr_doc svc) context)) question)
    /\ net (state_after (rag_chain.rag_chain svc orc question) w)
       = net w ++ [EmbedQuery question;
                   Completion
                     (rag_chain.layout
                        (Py.str_list (map (repr_doc svc) context)) question)].
Proof.
  intros Hr. exists (rag_chain.similarity_search svc 3 question (index w)).
  split; [by rewrite retriever_ok|]. split.
  - apply prompt_layout.
  - unfold state_after. by rewrite rag_chain_calls.
Qed.

(** C4, as amended, at a question asked of the bootstrapped store. *)
Lemma prompt_sent_to_llm_witness :
  exists context,
    fst (rag_chain.retriever demo.svc demo.calm "menu?" demo.bootstrapped) = Ok context
    /\ rag_chain.prompt demo.svc context "menu?"
       = Ok (rag_chain.layout
               (Py.str_list (map (repr_doc demo.svc) context)) "menu?")
    /\ net (state_after (rag_chain.rag_chain demo.svc demo.calm "menu?")
              demo.bootstrapped)
       = net demo.bootstrapped
         ++ [EmbedQuery "menu?";
             Completion
               (rag_chain.layout
                  (Py.str_list (map (repr_doc demo.svc) context)) "menu?")].
Proof.
  apply (prompt_sent_to_llm demo.svc demo.calm "menu?" demo.bootstrapped).
  reflexivity.
Defined.

(** C4 as stated fails on the code.  Whatever the [repr] of a document is,
    the prompt built for one retrieved chunk is not the instruction, the
    chunk text under [Contexto:] and the question under [Pregunta:]: the
    context starts with the bracket of the list. *)
Lemma prompt_is_not_the_concatenated_texts :
  let chunk := {| page_content := demo.menu_text; metadata := None |} in
  ~ exists svc : Services,
      rag_chain.prompt svc [chunk] "What is the price of pizza?"
      = Ok (rag_chain.prompt_as_stated [chunk] "What is the price of pizza?").
Proof.
  intros chunk [svc H]. rewrite prompt_layout in H.
  injection H as H. vm_compute in H. discriminate H.
Qed.

(** C5, as amended.  For every question submitted while the store answers,
    the retriever returns [min 3 n] entries of an index of [n] entries; they
    are entries of the index, none of the entries left out is nearer to the
    question than one of them, and they are the context of the prompt sent to
    the chat model. *)
Theorem retriever_returns_nearest
    (svc : Services) (orc : Oracle) (question : string) (w : World) :
  store_read orc = None ->
  exists context rest,
    fst (rag_chain.retriever svc orc question w) = Ok context
    /\ length context = 3 `min` length (index w)
    /\ context ++ rest ≡ₚ index w
    /\ (forall a b, a ∈ context -> b ∈ rest ->
          (distance svc question (page_content a)
           <= distance svc question (page_content b))%nat)
    /\ net (state_after (rag_chain.rag_chain svc orc question) w)
       = net w ++ [EmbedQuery question;
                   Completion
                     (rag_chain.layout
                        (Py.str_list (map (repr_doc svc) context)) question)].
Proof.
  intros Hr.
  destruct (similarity_search_split svc 3 question (index w)) as (rest & Hperm & Hnear).
  exists (rag_chain.similarity_search svc 3 question (index w)), rest.
  split; [by rewrite retriever_ok|].
  split; [apply similarity_search_length|].
  split; [done|]. split; [exact Hnear|].
  unfold state_after. by rewrite rag_chain_calls.
Qed.

(** C5, as amended, at a question asked of a store of five entries: three
    are retrieved and two are left out. *)
Lemma retriever_returns_nearest_witness :
  exists context rest,
    fst (rag_chain.retriever demo.svc demo.calm "Pizza?" scenario.stocked) = Ok context
    /\ length context = 3 `min` length (index scenario.stocked)
    /\ context ++ rest ≡ₚ index scenario.stocked
    /\ (forall a b, a ∈ context -> b ∈ rest ->
          (distance demo.svc "Pizza?" (page_content a)
           <= distance demo.svc "Pizza?" (page_content b))%nat)
    /\ net (state_after (rag_chain.rag_chain demo.svc demo.calm "Pizza?")
              scenario.stocked)
       = net scenario.stocked
         ++ [EmbedQuery "Pizza?";
             Completion
               (rag_chain.layout
                  (Py.str_list (map (repr_doc demo.svc) context)) "Pizza?")].
Proof.
  apply (retriever_returns_nearest demo.svc demo.calm "Pizza?" scenario.stocked).
  reflexivity.
Defined.

(** The three entries retrieved from the store of five, nearest first: the
    two farthest entries, first in the index, are left out. *)
Example retriever_cuts_at_three :
  fst (rag_chain.retriever demo.svc demo.calm "Pizza?" scenario.stocked)
  = Ok [ {| page_content := "Pizza!"; metadata := None |};
         {| page_content := "Pizza"; metadata := None |};
         {| page_content := "Pizza $10"; metadata := None |} ].
Proof. vm_compute. reflexivity. Qed.

(** C5 as stated fails on the code.  On the store that holds the bootstrap
    text only, the retriever returns that one entry, not three. *)
Lemma fresh_index_yields_one_chunk :
  fst (rag_chain.retriever demo.svc demo.calm "What is the price of pizza?"
         demo.bootstrapped)
  = Ok [ {| page_content := vector_store.bootstrap_text; metadata := None |} ]
  /\ ~ exists context,
         fst (rag_chain.retriever demo.svc demo.calm "What is the price of pizza?"
                demo.bootstrapped) = Ok context
         /\ length context = 3.
Proof.
  assert (Hrun : fst (rag_chain.retriever demo.svc demo.calm
                        "What is the price of pizza?" demo.bootstrapped)
                 = Ok [ {| page_content := vector_store.bootstrap_text;
                           metadata := None |} ])
    by (vm_compute; reflexivity).
  split; [exact Hrun|].
  intros (context & Hctx & Hlen). rewrite Hrun in Hctx.
  injection Hctx as <-. simpl in Hlen. discriminate.
Qed.

(** C10.  [/api/chat] validates nothing about the question: for every
    request, the empty question included, the chain is invoked on the question
    as received (the first call made is the embedding of that very string);
    the response is the reply of the chain when it returns, and HTTP 500
    carrying the message of the error when it raises.  No other outcome
    exists. *)
Theorem handle_chat_accepts_any_question
    (svc : Services) (orc : Oracle) (request : chat.ChatRequest) (w : World) :
  match rag_chain.rag_chain svc orc (chat.question request) w with
  | (Ok reply, w') =>
      chat.handle_chat svc orc request w = (Ok {| chat.answer := reply |}, w')
  | (Raise e, w') =>
      chat.handle_chat svc orc request w
      = (Raise (HTTPException 500 (chat.chat_failed e)),
         set_stdout (stdout w' ++ ["Error en el endpoint /chat: " +:+ str_exn e]) w')
  end
  /\ exists later,
       net (state_after (chat.handle_chat svc orc request) w)
       = net w ++ EmbedQuery (chat.question request) :: later.
Proof.
  split.
  - unfold chat.handle_chat.
    destruct (rag_chain.rag_chain svc orc (chat.question request) w)
      as [[reply|e] w'] eqn:Hrun.
    + apply try_except_ok. by erewrite bind_ok by exact Hrun.
    + erewrite try_except_raise by (by erewrite bind_raise by exact Hrun).
      reflexivity.
  - unfold state_after, chat.handle_chat.
    destruct (store_read orc) as [e|] eqn:Hr.
    + exists [].
      erewrite try_except_raise.
      2: { erewrite bind_raise; [reflexivity|]. unfold rag_chain.rag_chain.
           erewrite bind_raise; [reflexivity|]. by apply retriever_raise. }
      reflexivity.
    + pose proof (rag_chain_calls svc orc (chat.question request) w Hr) as Hrun.
      simpl in Hrun.
      eexists [Completion _].
      destruct (llm_reply orc _) as [reply|e] eqn:Hl in Hrun.
      * erewrite try_except_ok; [|by erewrite bind_ok by exact Hrun]. reflexivity.
      * erewrite try_except_raise; [|by erewrite bind_raise by exact Hrun]. reflexivity.
Qed.

(** The empty question is answered. *)
Example handle_chat_empty_question :
  fst (chat.handle_chat demo.svc demo.calm {| chat.question := "" |} demo.bootstrapped)
  = Ok {| chat.answer := "Pizza: $10" |}.
Proof. vm_compute. reflexivity. Qed.

(** ** Notification registration *)

Section Notifications.
Context (svc : Services).

Lemma register_known request w :
  main.token request ∈ fcm_tokens w ->
  main.register_fcm_token svc request w = (Ok "Token FCM registrado con éxito", w).
Proof.
  intros Hin. unfold main.register_fcm_token. unfold_monad. simpl.
  by rewrite bool_decide_eq_true_2.
Qed.

Lemma register_new request w :
  main.token request ∉ fcm_tokens w ->
  main.register_fcm_token svc request w
  = (Ok "Token FCM registrado con éxito",
     {| chroma := chroma w;
        files := files w;
        fcm_tokens := fcm_tokens w ∪ {[main.token request]};
        net := net w;
        stdout := stdout w
                  ++ ["Token FCM registrado: " +:+ main.token request;
                      "Tokens actuales: "
                      +:+ main.str_tokens svc
                            (elements (fcm_tokens w ∪ {[main.token request]}))] |}).
Proof.
  intros Hin. unfold main.register_fcm_token. unfold_monad. simpl.
  rewrite bool_decide_eq_false_2 by done. simpl.
  by rewrite <- app_assoc.
Qed.

Lemma register_adds request w :
  fcm_tokens (state_after (main.register_fcm_token svc request) w)
  = fcm_tokens w ∪ {[main.token request]}.
Proof.
  unfold state_after.
  destruct (decide (main.token request ∈ fcm_tokens w)) as [Hin|Hin].
  - rewrite register_known by done. simpl.
    apply set_eq. intros t. rewrite elem_of_union, elem_of_singleton.
    split; [by left|]. by intros [Ht| ->].
  - by rewrite register_new.
Qed.

Lemma send_notification_no_tokens orc request w :
  fcm_tokens w = ∅ ->
  main.send_notification_to_all svc orc request w
  = (Raise (HTTPException 404 "No hay tokens FCM registrados."), w).
Proof.
  intros He. unfold main.send_notification_to_all. unfold_monad. simpl.
  by rewrite bool_decide_eq_true_2.
Qed.
End Notifications.

(** How often [x] occurs in a list without duplicates. *)
Lemma occurs_never {A} `{EqDecision A} (x : A) (l : list A) :
  x ∉ l -> filter (fun y => y = x) l = [].
Proof.
  induction l as [|y l IH]; intros Hnot; [done|].
  apply not_elem_of_cons in Hnot as [Hne Hnot].
  rewrite filter_cons_False by (intros ->; done). by apply IH.
Qed.

Lemma occurs_once {A} `{EqDecision A} (x : A) (l : list A) :
  NoDup l -> x ∈ l -> length (filter (fun y => y = x) l) = 1.
Proof.
  induction 1 as [|y l Hy Hnd IH]; intros Hin.
  - by apply elem_of_nil in Hin.
  - destruct (decide (y = x)) as [->|Hne].
    + rewrite filter_cons_True by done. simpl. by rewrite occurs_never.
    + rewrite filter_cons_False by done.
      apply elem_of_cons in Hin as [->|Hin]; [done|]. by apply IH.
Qed.

(** C7.  Registering a token twice leaves the state of the first
    registration: the token set after the second call is the set after the
    first, it holds the token, and the token occurs exactly once in the list
    of its elements.  Both calls are answered alike. *)
Theorem register_token_idempotent
    (svc : Services) (request : main.FcmTokenRequest) (w : World) :
  let once := state_after (main.register_fcm_token svc request) w in
  let twice := state_after (main.register_fcm_token svc request) once in
  twice = once
  /\ fcm_tokens twice = fcm_tokens once
  /\ main.token request ∈ fcm_tokens twice
  /\ length (filter (fun t => t = main.token request) (main.token_list twice)) = 1
  /\ fst (main.register_fcm_token svc request once)
     = fst (main.register_fcm_token svc request w).
Proof.
  intros once twice.
  assert (Hin : main.token request ∈ fcm_tokens once).
  { unfold once. rewrite register_adds.
    apply elem_of_union_r. by apply elem_of_singleton. }
  assert (Hsame : twice = once).
  { unfold twice, state_after. by rewrite register_known. }
  rewrite Hsame. split_and!; try done.
  - unfold main.token_list.
    apply occurs_once; [apply NoDup_elements|]. by apply elem_of_elements.
  - rewrite register_known by done. unfold main.register_fcm_token.
    unfold_monad. simpl. by case_bool_decide.
Qed.

(** C8.  With no registered token, [/api/send-notification] is answered with
    HTTP 404 and the state is untouched: no call to the push service is made
    and the token set is unchanged. *)
Theorem send_notification_without_tokens
    (svc : Services) (orc : Oracle) (request : main.NotificationRequest) (w : World) :
  fcm_tokens w = ∅ ->
  exists detail w',
    main.send_notification_to_all svc orc request w
    = (Raise (HTTPException 404 detail), w')
    /\ net w' = net w
    /\ fcm_tokens w' = fcm_tokens w
    /\ w' = w.
Proof.
  intros He. eexists _, w. by rewrite send_notification_no_tokens.
Qed.

(** C8 at the bootstrapped process, which has no token. *)
Lemma send_notification_without_tokens_witness :
  exists detail w',
    main.send_notification_to_all demo.svc demo.calm
      {| main.title := "Hoy"; main.body := "Pizza 2x1" |} demo.bootstrapped
    = (Raise (HTTPException 404 detail), w')
    /\ net w' = net demo.bootstrapped
    /\ fcm_tokens w' = fcm_tokens demo.bootstrapped
    /\ w' = demo.bootstrapped.
Proof.
  apply (send_notification_without_tokens demo.svc demo.calm
           {| main.title := "Hoy"; main.body := "Pizza 2x1" |} demo.bootstrapped).
  reflexivity.
Defined.

(** ** The vector store *)

Section VectorStore.
Context (settings : Settings) (orc : Oracle) (w : World).

Import vector_store.

Ltac run_store :=
  unfold get_vector_store, from_texts, upsert, os_makedirs, index;
  unfold_monad; simpl.

Lemma get_vector_store_loads docs :
  chroma w = ChromaDir docs ->
  get_vector_store settings orc w
  = (Ok tt, set_stdout (stdout w ++ ["Cargando ChromaDB existente desde: "
                                      +:+ CHROMA_PERSIST_DIR settings]) w).
Proof. intros Hd. run_store. by rewrite Hd. Qed.

Lemma get_vector_store_creates :
  exists_and_listed (chroma w) = false ->
  store_write orc = None ->
  get_vector_store settings orc w
  = (Ok tt,
     {| chroma := ChromaDir [bootstrap_document];
        files := files w;
        fcm_tokens := fcm_tokens w;
        net := net w ++ [EmbedDocuments [bootstrap_text]];
        stdout := stdout w ++ ["Creando nueva ChromaDB en: "
                               +:+ CHROMA_PERSIST_DIR settings] |}).
Proof.
  intros Hd Hs. run_store. rewrite Hd. simpl.
  destruct (chroma w) eqn:Hc; try discriminate; simpl; rewrite Hs; simpl;
    unfold set_net, set_chroma, set_stdout; simpl; by rewrite ?Hc.
Qed.

Lemma get_vector_store_create_fails e :
  exists_and_listed (chroma w) = false ->
  store_write orc = Some e ->
  get_vector_store settings orc w
  = (Raise e,
     {| chroma := EmptyDir;
        files := files w;
        fcm_tokens := fcm_tokens w;
        net := net w ++ [EmbedDocuments [bootstrap_text]];
        stdout := stdout w ++ ["Creando nueva ChromaDB en: "
                               +:+ CHROMA_PERSIST_DIR settings] |}).
Proof.
  intros Hd Hs. run_store. rewrite Hd. simpl.
  destruct (chroma w) eqn:Hc; try discriminate; simpl; rewrite Hs; simpl;
    unfold set_net, set_chroma, set_stdout; simpl; by rewrite ?Hc.
Qed.

Lemma get_vector_store_index_prefix :
  index w `prefix_of` index (state_after (get_vector_store settings orc) w).
Proof.
  unfold state_after.
  destruct (exists_and_listed (chroma w)) eqn:Hd.
  - destruct (chroma w) as [| |docs] eqn:Hc; try discriminate.
    rewrite (get_vector_store_loads docs Hc). unfold index. simpl. by rewrite Hc.
  - assert (Hi : index w = []).
    { unfold index. by destruct (chroma w). }
    rewrite Hi. apply prefix_nil.
Qed.
End VectorStore.

(** ** Every operation only appends to the index *)

Section AppendOnly.
Context (settings : Settings) (svc : Services).

Lemma handle_chat_keeps_chroma orc request w :
  chroma (state_after (chat.handle_chat svc orc request) w) = chroma w.
Proof.
  pose proof (rag_chain_keeps_chroma svc orc (chat.question request) w) as Hk.
  unfold state_after in *. unfold chat.handle_chat.
  destruct (rag_chain.rag_chain svc orc (chat.question request) w)
    as [[reply|e] w'] eqn:Hrun.
  - erewrite try_except_ok; [exact Hk|]. by erewrite bind_ok by exact Hrun.
  - erewrite try_except_raise; [|by erewrite bind_raise by exact Hrun]. exact Hk.
Qed.

Lemma register_keeps_chroma request w :
  chroma (state_after (main.register_fcm_token svc request) w) = chroma w.
Proof.
  unfold state_after.
  destruct (decide (main.token request ∈ fcm_tokens w)) as [Hin|Hin].
  - by rewrite register_known.
  - by rewrite register_new.
Qed.

Lemma send_notification_keeps_chroma orc request w :
  chroma (state_after (main.send_notification_to_all svc orc request) w) = chroma w.
Proof.
  unfold state_after, main.send_notification_to_all, main.MulticastMessage,
    main.send_multicast.
  unfold_monad. simpl.
  repeat (case_match; simpl in *; simplify_eq; try done).
Qed.

Lemma lifespan_index_prefix orc w :
  index w `prefix_of` index (state_after (main.lifespan svc orc) w).
Proof.
  unfold state_after, main.lifespan, pdf_service.os_path_exists.
  unfold_monad. simpl.
  destruct (firebase_init orc); simpl.
  all: case_bool_decide; simpl; [|done].
  all: match goal with
       | |- context [pdf_service.process_pdf_from_path _ ?o ?p ?w0] =>
           pose proof (path_index_prefix svc o p w0) as Hp;
           unfold state_after in Hp;
           destruct (pdf_service.process_pdf_from_path svc o p w0) as [[[]|err] w2]
       end; simpl in *; exact Hp.
Qed.

Lemma run_op_index_prefix op w :
  index w `prefix_of` index (run_op settings svc op w).
Proof.
  destruct op; simpl.
  - apply get_vector_store_index_prefix.
  - apply lifespan_index_prefix.
  - unfold index. by rewrite handle_chat_keeps_chroma.
  - apply upload_pdf_index_prefix.
  - apply path_index_prefix.
  - unfold index. by rewrite register_keeps_chroma.
  - unfold index. by rewrite send_notification_keeps_chroma.
  - done.
Qed.

Lemma run_ops_index_prefix ops w :
  index w `prefix_of` index (run_ops settings svc ops w).
Proof.
  unfold run_ops. revert w.
  induction ops as [|op ops IH]; intros w; simpl; [done|].
  etrans; [apply (run_op_index_prefix op)|apply IH].
Qed.
End AppendOnly.

(** C9.  When the persistence directory is missing or empty and the store
    accepts the write, [get_vector_store] returns with an index that holds
    exactly the bootstrap entry, inserted into an index that was empty, and no
    later sequence of operations makes the index empty again.  When the
    directory exists and is not empty, it returns with the collection and the
    index unchanged and without any call to a service.  (When the store
    rejects the first write, the error is raised and the index stays
    empty.) *)
Theorem get_vector_store_bootstraps_once
    (settings : Settings) (orc : Oracle) (w : World) :
  let '(r, w') := vector_store.get_vector_store settings orc w in
  match chroma w with
  | ChromaDir docs =>
      r = Ok tt /\ chroma w' = ChromaDir docs /\ index w' = index w
      /\ net w' = net w
  | NoDir | EmptyDir =>
      match store_write orc with
      | None =>
          r = Ok tt
          /\ index w = []
          /\ index w' = [vector_store.bootstrap_document]
          /\ forall svc ops, index (run_ops settings svc ops w') <> []
      | Some e => r = Raise e /\ index w' = []
      end
  end.
Proof.
  destruct (chroma w) as [| |docs] eqn:Hc.
  3: { rewrite (get_vector_store_loads _ _ _ docs Hc). simpl.
       unfold index. simpl. by rewrite Hc. }
  all: assert (Hd : vector_store.exists_and_listed (chroma w) = false)
         by (by rewrite Hc).
  all: destruct (store_write orc) as [e|] eqn:Hs;
         [by rewrite (get_vector_store_create_fails _ _ _ e Hd Hs)|].
  all: rewrite (get_vector_store_creates _ _ _ Hd Hs).
  all: split_and!; [done|unfold index; by rewrite Hc|done|].
  all: intros svc ops Hempty.
  all: match goal with
       | H : index (run_ops _ _ _ ?w0) = [] |- _ =>
           destruct (run_ops_index_prefix settings svc ops w0) as [k Hk];
           rewrite Hk in H
       end; discriminate.
Qed.

(** ** Ingesting a file again *)

Section Reingestion.
Context (settings : Settings) (svc : Services).

Lemma split_documents_texts (f : nat -> string -> Document) pages :
  (forall i text, page_content (f i text) = text) ->
  map page_content (pdf_service.split_documents svc 1000 100 (imap f pages))
  = pdf_service.chunk_texts svc pages.
Proof.
  unfold pdf_service.split_documents, pdf_service.chunk_texts.
  revert f. induction pages as [|text pages IH]; intros f Hf; simpl; [done|].
  rewrite map_app, map_map. simpl. rewrite map_id, Hf. f_equal.
  apply IH. intros i t. apply Hf.
Qed.

Lemma chunk_texts_of file_path pages :
  map page_content (pdf_service.chunks_of svc file_path pages)
  = pdf_service.chunk_texts svc pages.
Proof.
  unfold pdf_service.chunks_of, pdf_service.page_documents.
  by apply split_documents_texts.
Qed.

(** A successful upload was a PDF whose ingestion succeeded. *)
Lemma upload_pdf_ok_inv orc upload w message w' :
  chat.upload_pdf svc orc upload w = (Ok message, w') ->
  exists path pages,
    extract_pages svc (file upload) = Ok pages
    /\ index w' = index w ++ pdf_service.chunks_of svc path pages.
Proof.
  intros Hrun.
  destruct (decide (content_type upload = Some "application/pdf")) as [Hct|Hct].
  2: { by rewrite upload_pdf_bad_content_type in Hrun. }
  destruct (pdf_service.process_and_update_vector_store svc orc upload w)
    as [[[]|e] w1] eqn:Hproc.
  - rewrite (upload_pdf_ok _ _ _ _ _ Hct Hproc) in Hrun. injection Hrun as _ <-.
    apply upload_ok_inv in Hproc as (path & pages & _ & _ & He & _ & Hi & _).
    by exists path, pages.
  - by rewrite (upload_pdf_raise _ _ _ _ _ _ Hct Hproc) in Hrun.
Qed.

(** A successful ingestion, from either source, stored the chunks of the
    bytes it was given. *)
Lemma ingest_ok_inv orc src w data w' :
  source_bytes src w = Some data ->
  ingest svc orc src w = (Ok tt, w') ->
  exists path pages,
    extract_pages svc data = Ok pages
    /\ index w' = index w ++ pdf_service.chunks_of svc path pages.
Proof.
  destruct src as [upload|file_path]; simpl; intros Hdata Hrun.
  - injection Hdata as <-.
    apply upload_ok_inv in Hrun as (path & pages & _ & _ & He & _ & Hi & _).
    by exists path, pages.
  - apply path_ok_inv in Hrun as (data' & pages & Hf & He & _ & Hi).
    rewrite Hdata in Hf. injection Hf as <-. by exists file_path, pages.
Qed.

Lemma occurs_at_least_once (t : string) (l : list string) :
  t ∈ l -> 1 <= length (filter (fun s => s = t) l).
Proof.
  induction l as [|s l IH]; intros Hin; [by apply elem_of_nil in Hin|].
  destruct (decide (s = t)) as [->|Hne].
  - rewrite filter_cons_True by done. simpl. lia.
  - rewrite filter_cons_False by done.
    apply elem_of_cons in Hin as [->|Hin]; [done|]. by apply IH.
Qed.
End Reingestion.

(** C6.  Across every sequence of operations the index before is a prefix of
    the index after, so its size never decreases and no entry is deleted or
    replaced.  And when the same file is ingested twice with success, through
    the upload endpoint, through the upload ingestion or from a path, in any
    combination and whatever happens in between, the index ends with the
    chunks of the first ingestion, what was appended in between and the
    chunks of the second ingestion, both carrying the chunk texts of the
    file: every chunk text of the file occurs at least twice. *)
Theorem index_is_append_only (settings : Settings) (svc : Services) :
  (forall ops w,
     index w `prefix_of` index (run_ops settings svc ops w)
     /\ length (index w) <= length (index (run_ops settings svc ops w)))
  /\ (forall first_orc second_orc upload between w m1 w1 m2 w2,
        chat.upload_pdf svc first_orc upload w = (Ok m1, w1) ->
        chat.upload_pdf svc second_orc upload (run_ops settings svc between w1)
        = (Ok m2, w2) ->
        exists pages first middle second,
          extract_pages svc (file upload) = Ok pages
          /\ index w2 = index w ++ first ++ middle ++ second
          /\ map page_content first = pdf_service.chunk_texts svc pages
          /\ map page_content second = pdf_service.chunk_texts svc pages
          /\ forall text, text ∈ pdf_service.chunk_texts svc pages ->
               2 <= length (filter (fun s => s = text)
                              (map page_content (index w2))))
  /\ (forall first_orc second_orc first_src second_src data between w w1 w2,
        source_bytes first_src w = Some data ->
        ingest svc first_orc first_src w = (Ok tt, w1) ->
        source_bytes second_src (run_ops settings svc between w1) = Some data ->
        ingest svc second_orc second_src (run_ops settings svc between w1)
        = (Ok tt, w2) ->
        exists pages first middle second,
          extract_pages svc data = Ok pages
          /\ pdf_service.chunk_texts svc pages ≠ []
          /\ index w2 = index w ++ first ++ middle ++ second
          /\ map page_content first = pdf_service.chunk_texts svc pages
          /\ map page_content second = pdf_service.chunk_texts svc pages
          /\ forall text, text ∈ pdf_service.chunk_texts svc pages ->
               2 <= length (filter (fun s => s = text)
                              (map page_content (index w2)))).
Proof.
  split; [|split].
  - intros ops w. pose proof (run_ops_index_prefix settings svc ops w) as Hp.
    split; [done|]. by apply prefix_length.
  - intros o1 o2 upload between w m1 w1 m2 w2 Hfirst Hsecond.
    apply upload_pdf_ok_inv in Hfirst as (path1 & pages & He & Hi1).
    apply upload_pdf_ok_inv in Hsecond as (path2 & pages' & He' & Hi2).
    rewrite He in He'. injection He' as <-.
    destruct (run_ops_index_prefix settings svc between w1) as [middle Hmid].
    exists pages, (pdf_service.chunks_of svc path1 pages), middle,
      (pdf_service.chunks_of svc path2 pages).
    split_and!; [done| |apply chunk_texts_of|apply chunk_texts_of|].
    + rewrite Hi2, Hmid, Hi1. by rewrite <- !app_assoc.
    + intros text Hin. rewrite Hi2, Hmid, Hi1.
      rewrite !map_app, !filter_app, !length_app, !chunk_texts_of.
      pose proof (occurs_at_least_once text _ Hin). lia.
  - intros o1 o2 a b data between w w1 w2 Ha Hfirst Hb Hsecond.
    assert (Hne : exists path pages,
               extract_pages svc data = Ok pages
               /\ pdf_service.chunks_of svc path pages ≠ []).
    { destruct a as [upload|file_path]; simpl in *.
      - injection Ha as <-.
        apply upload_ok_inv in Hfirst as (path & pages & _ & _ & He & _ & _ & Hne).
        by exists path, pages.
      - apply path_ok_inv in Hfirst as (data' & pages & Hf & He & Hne & _).
        rewrite Ha in Hf. injection Hf as <-. by exists file_path, pages. }
    destruct Hne as (path0 & pages0 & He0 & Hne).
    apply (ingest_ok_inv svc _ _ _ data) in Hfirst as (path1 & pages & He & Hi1);
      [|done].
    apply (ingest_ok_inv svc _ _ _ data) in Hsecond as (path2 & pages' & He' & Hi2);
      [|done].
    rewrite He in He'. injection He' as <-.
    rewrite He in He0. injection He0 as <-.
    destruct (run_ops_index_prefix settings svc between w1) as [middle Hmid].
    exists pages, (pdf_service.chunks_of svc path1 pages), middle,
      (pdf_service.chunks_of svc path2 pages).
    split_and!; [done| | |apply chunk_texts_of|apply chunk_texts_of|].
    + rewrite <- (chunk_texts_of svc path0). intros Hnil.
      apply Hne. by apply fmap_nil_inv in Hnil.
    + rewrite Hi2, Hmid, Hi1. by rewrite <- !app_assoc.
    + intros text Hin. rewrite Hi2, Hmid, Hi1.
      rewrite !map_app, !filter_app, !length_app, !chunk_texts_of.
      pose proof (occurs_at_least_once text _ Hin). lia.
Qed.

(** C6 at two uploads of the one-page menu into the bootstrapped store, and
    at two ingestions of the menu from its path. *)
Lemma index_is_append_only_witness :
  let up := demo.upload_of "application/pdf" demo.menu_pdf in
  let w1 := snd (chat.upload_pdf demo.svc demo.calm up demo.bootstrapped) in
  let w2 := snd (chat.upload_pdf demo.svc demo.calm up w1) in
  let menu := pdf_service.process_pdf_from_path demo.svc demo.calm
                "app/data/menu.pdf" in
  let p1 := snd (menu scenario.with_menu) in
  let p2 := snd (menu p1) in
  length (index demo.bootstrapped) <= length (index w2)
  /\ 2 <= length (filter (fun s => s = demo.menu_text) (map page_content (index w2)))
  /\ 2 <= length (filter (fun s => s = demo.menu_text) (map page_content (index p2))).
Proof.
  intros up w1 w2 menu p1 p2.
  destruct (index_is_append_only demo.settings demo.svc) as (Hgrow & Htwice & Hany).
  split_and!.
  - exact (proj2 (Hgrow [UploadPdf demo.calm up; UploadPdf demo.calm up]
                    demo.bootstrapped)).
  - destruct (Htwice demo.calm demo.calm up [] demo.bootstrapped
                chat.upload_done w1 chat.upload_done w2)
      as (pages & first & middle & second & He & _ & _ & _ & Hcount).
    + vm_compute. reflexivity.
    + vm_compute. reflexivity.
    + apply Hcount. vm_compute in He. injection He as <-.
      vm_compute. constructor.
  - destruct (Hany demo.calm demo.calm (FromPath "app/data/menu.pdf")
                (FromPath "app/data/menu.pdf") demo.menu_pdf []
                scenario.with_menu p1 p2)
      as (pages & first & middle & second & He & _ & _ & _ & _ & Hcount).
    + reflexivity.
    + vm_compute. reflexivity.
    + vm_compute. reflexivity.
    + vm_compute. reflexivity.
    + apply Hcount. vm_compute in He. injection He as <-.
      vm_compute. constructor.
Defined.

(** * Further properties *)

(** ** Ingestion from a path and start-up *)

Section StartUp.
Context (svc : Services) (orc : Oracle).

(** What an ingestion from a path may change: the collection, the network
    log and the output. *)
Lemma path_frame file_path w :
  let w' := state_after (pdf_service.process_pdf_from_path svc orc file_path) w in
  files w' = files w /\ fcm_tokens w' = fcm_tokens w.
Proof. unfold state_after. path_cases svc orc file_path w; done. Qed.

Ltac run_lifespan :=
  unfold main.lifespan, pdf_service.os_path_exists; unfold_monad; simpl.

Lemma lifespan_returns w :
  fst (main.lifespan svc orc w) = Ok tt.
Proof.
  run_lifespan.
  destruct (firebase_init orc); simpl.
  all: case_bool_decide; simpl; [|done].
  all: match goal with
       | |- context [pdf_service.process_pdf_from_path _ ?o ?p ?w0] =>
           destruct (pdf_service.process_pdf_from_path svc o p w0) as [[[]|err] w2]
       end; done.
Qed.

Lemma lifespan_frame w :
  let w' := state_after (main.lifespan svc orc) w in
  files w' = files w /\ fcm_tokens w' = fcm_tokens w.
Proof.
  unfold state_after. run_lifespan.
  destruct (firebase_init orc); simpl.
  all: case_bool_decide; simpl; [|done].
  all: match goal with
       | |- context [pdf_service.process_pdf_from_path _ ?o ?p ?w0] =>
           pose proof (path_frame p w0) as Hp; unfold state_after in Hp;
           destruct (pdf_service.process_pdf_from_path svc o p w0) as [[[]|err] w2]
       end; simpl in *; exact Hp.
Qed.

Lemma lifespan_no_menu w :
  files w !! "app/data/menu.pdf" = None ->
  let w' := state_after (main.lifespan svc orc) w in
  chroma w' = chroma w /\ net w' = net w.
Proof.
  intros Hf. unfold state_after. run_lifespan.
  destruct (firebase_init orc); simpl.
  all: rewrite bool_decide_eq_false_2; [done|].
  all: rewrite Hf; by intros [? ?].
Qed.

Lemma lifespan_ingests w data pages :
  files w !! "app/data/menu.pdf" = Some data ->
  extract_pages svc data = Ok pages ->
  store_write orc = None ->
  index (state_after (main.lifespan svc orc) w)
  = index w ++ pdf_service.chunks_of svc "app/data/menu.pdf" pages.
Proof.
  intros Hf He Hs. unfold state_after. run_lifespan.
  destruct (nil_or_not (pdf_service.chunks_of svc "app/data/menu.pdf" pages))
    as [Hch|Hch].
  all: destruct (firebase_init orc); simpl.
  all: rewrite bool_decide_eq_true_2 by (by rewrite Hf); simpl.
  all: match goal with
       | |- context [pdf_service.process_pdf_from_path _ ?o ?p ?w0] =>
           first [ rewrite (path_succeeds svc o p w0 data pages Hf He Hch Hs)
                 | rewrite (path_empty_batch svc o p w0 data pages Hf He Hch) ]
       end; simpl; rewrite ?Hch, ?app_nil_r; done.
Qed.

Lemma lifespan_swallows w data e :
  files w !! "app/data/menu.pdf" = Some data ->
  extract_pages svc data = Raise e ->
  let w' := state_after (main.lifespan svc orc) w in
  chroma w' = chroma w /\ net w' = net w
  /\ last (stdout w') = Some ("Error al procesar el PDF durante el inicio: " +:+ str_exn e).
Proof.
  intros Hf He. unfold state_after. run_lifespan.
  destruct (firebase_init orc); simpl.
  all: rewrite bool_decide_eq_true_2 by (by rewrite Hf); simpl.
  all: match goal with
       | |- context [pdf_service.process_pdf_from_path _ ?o ?p ?w0] =>
           rewrite (path_extraction_fails svc o p w0 data e Hf He)
       end; simpl; split_and!; try done; by rewrite last_snoc.
Qed.
End StartUp.

(** ** The fan-out of notifications *)

Section Fanout.
Context (svc : Services).

Lemma failure_count_cons ok rest :
  main.failure_count (ok :: rest)
  = (if (ok : bool) then 0 else 1) + main.failure_count rest.
Proof.
  unfold main.failure_count. destruct ok.
  - by rewrite filter_cons_False.
  - by rewrite filter_cons_True.
Qed.

Lemma success_count_cons ok rest :
  main.success_count (ok :: rest)
  = (if (ok : bool) then 1 else 0) + main.success_count rest.
Proof.
  unfold main.success_count. destruct ok.
  - by rewrite filter_cons_True.
  - by rewrite filter_cons_False.
Qed.

Lemma counts_add_up responses :
  main.success_count responses + main.failure_count responses = length responses.
Proof.
  induction responses as [|ok rest IH]; [done|].
  rewrite success_count_cons, failure_count_cons. destruct ok; simpl; lia.
Qed.

(** The loop reports the tokens at the positions of the failed responses. *)
Lemma failed_from_in_range tokens responses i :
  i + length responses <= length tokens ->
  main.failed_from tokens i responses = Ok (notify.failed_at (drop i tokens) responses)
  /\ length (notify.failed_at (drop i tokens) responses) = main.failure_count responses.
Proof.
  revert i. induction responses as [|ok rest IH]; intros i Hlen.
  - unfold notify.failed_at. by rewrite zip_with_nil_r.
  - simpl in Hlen. destruct (IH (S i)) as (Hrun & Hcount); [lia|].
    destruct (lookup_lt_is_Some_2 tokens i) as [t Ht]; [lia|].
    rewrite (drop_S _ _ _ Ht), failure_count_cons.
    destruct ok; simpl.
    + rewrite Hrun. split; [done|]. exact Hcount.
    + rewrite Ht, Hrun. split; [done|].
      change (notify.failed_at (t :: drop (S i) tokens) (false :: rest))
        with (t :: notify.failed_at (drop (S i) tokens) rest).
      cbn [length]. f_equal. exact Hcount.
Qed.

Ltac run_send :=
  unfold main.send_notification_to_all, main.MulticastMessage,
    main.send_multicast; unfold_monad; simpl.

Lemma send_notification_too_many orc request w :
  500 < length (main.token_list w) ->
  main.send_notification_to_all svc orc request w = (Raise main.too_many_tokens, w).
Proof.
  intros Hmany. run_send.
  assert (Hne : fcm_tokens w ≠ ∅).
  { intros He. unfold main.token_list in Hmany. rewrite He, elements_empty in Hmany.
    simpl in Hmany. lia. }
  rewrite bool_decide_eq_false_2 by done. simpl.
  by rewrite bool_decide_eq_true_2.
Qed.

Lemma send_notification_push_fails orc request w e :
  fcm_tokens w ≠ ∅ ->
  length (main.token_list w) <= 500 ->
  fcm_reply orc (main.token_list w) = Raise e ->
  main.send_notification_to_all svc orc request w
  = (Raise (HTTPException 500 ("Error al enviar las notificaciones: " +:+ str_exn e)),
     {| chroma := chroma w; files := files w; fcm_tokens := fcm_tokens w;
        net := net w ++ [SendMulticast (main.token_list w) (main.title request)
                           (main.body request)];
        stdout := stdout w ++ ["Error al enviar las notificaciones: " +:+ str_exn e] |}).
Proof.
  intros Hne Hmax Hr. run_send. rewrite bool_decide_eq_false_2 by done. simpl.
  rewrite bool_decide_eq_false_2 by lia. simpl.
  by rewrite Hr.
Qed.

Lemma send_notification_answered orc request w responses :
  fcm_tokens w ≠ ∅ ->
  length (main.token_list w) <= 500 ->
  fcm_reply orc (main.token_list w) = Ok responses ->
  length responses <= length (main.token_list w) ->
  exists out,
    main.send_notification_to_all svc orc request w
    = (Ok (notify.summary_of responses),
       {| chroma := chroma w; files := files w; fcm_tokens := fcm_tokens w;
          net := net w ++ [SendMulticast (main.token_list w) (main.title request)
                             (main.body request)];
          stdout := stdout w ++ notify.summary_of responses :: out |}).
Proof.
  intros Hne Hmax Hr Hlen. run_send. rewrite bool_decide_eq_false_2 by done. simpl.
  rewrite bool_decide_eq_false_2 by lia. simpl.
  rewrite Hr. simpl. case_bool_decide as Hfail; simpl.
  - destruct (failed_from_in_range (main.token_list w) responses 0)
      as (Hrun & _); [simpl; lia|].
    unfold main.token_list in *. simpl. rewrite Hrun. simpl.
    eexists [_]. by rewrite <- app_assoc.
  - exists []. done.
Qed.

Lemma send_notification_frame orc request w :
  let w' := state_after (main.send_notification_to_all svc orc request) w in
  fcm_tokens w' = fcm_tokens w /\ files w' = files w.
Proof.
  unfold state_after. run_send.
  repeat (case_match; simpl in *; simplify_eq; try done).
Qed.
End Fanout.

(** ** What each operation leaves alone *)

Section Frames.
Context (settings : Settings) (svc : Services).

Lemma upload_frame orc upload w :
  fcm_tokens
    (state_after (pdf_service.process_and_update_vector_store svc orc upload) w)
  = fcm_tokens w.
Proof. unfold state_after. upload_cases svc orc upload w; done. Qed.

(** The endpoint adds a line of output to what the ingestion did. *)
Lemma upload_pdf_state orc upload w :
  exists out,
    state_after (chat.upload_pdf svc orc upload) w
    = (if bool_decide (content_type upload = Some "application/pdf") then
         set_stdout out
           (state_after (pdf_service.process_and_update_vector_store svc orc upload) w)
       else w).
Proof.
  unfold state_after. case_bool_decide as Hct.
  - destruct (pdf_service.process_and_update_vector_store svc orc upload w)
      as [[[]|e] w'] eqn:Hrun.
    + rewrite (upload_pdf_ok _ _ _ _ _ Hct Hrun). exists (stdout w'). by destruct w'.
    + rewrite (upload_pdf_raise _ _ _ _ _ _ Hct Hrun). by eexists.
  - rewrite upload_pdf_bad_content_type by done. by exists [].
Qed.

Lemma upload_pdf_keeps_tokens orc upload w :
  fcm_tokens (state_after (chat.upload_pdf svc orc upload) w) = fcm_tokens w.
Proof.
  destruct (upload_pdf_state orc upload w) as [out ->].
  case_bool_decide; [|done]. simpl. apply upload_frame.
Qed.

Lemma rag_chain_frame orc question w :
  let w' := state_after (rag_chain.rag_chain svc orc question) w in
  files w' = files w /\ fcm_tokens w' = fcm_tokens w.
Proof.
  unfold state_after.
  destruct (store_read orc) as [e|] eqn:Hr.
  - unfold rag_chain.rag_chain. by erewrite bind_raise by (by apply retriever_raise).
  - by rewrite rag_chain_calls.
Qed.

Lemma handle_chat_frame orc request w :
  let w' := state_after (chat.handle_chat svc orc request) w in
  chroma w' = chroma w /\ files w' = files w /\ fcm_tokens w' = fcm_tokens w.
Proof.
  split; [apply handle_chat_keeps_chroma|].
  pose proof (rag_chain_frame orc (chat.question request) w) as Hk.
  unfold state_after in *. unfold chat.handle_chat.
  destruct (rag_chain.rag_chain svc orc (chat.question request) w)
    as [[reply|e] w'] eqn:Hrun.
  - erewrite try_except_ok; [exact Hk|]. by erewrite bind_ok by exact Hrun.
  - erewrite try_except_raise; [|by erewrite bind_raise by exact Hrun]. exact Hk.
Qed.

Lemma get_vector_store_frame orc w :
  let w' := state_after (vector_store.get_vector_store settings orc) w in
  files w' = files w /\ fcm_tokens w' = fcm_tokens w.
Proof.
  unfold state_after.
  destruct (vector_store.exists_and_listed (chroma w)) eqn:Hd.
  - destruct (chroma w) as [| |docs] eqn:Hc; try discriminate.
    by rewrite (get_vector_store_loads _ _ _ docs Hc).
  - destruct (store_write orc) as [e|] eqn:Hs.
    + by rewrite (get_vector_store_create_fails _ _ _ e Hd Hs).
    + by rewrite (get_vector_store_creates _ _ _ Hd Hs).
Qed.

Lemma run_op_tokens op w :
  fcm_tokens w ⊆ fcm_tokens (run_op settings svc op w).
Proof.
  destruct op; simpl.
  - by rewrite (proj2 (get_vector_store_frame orc w)).
  - by rewrite (proj2 (lifespan_frame svc orc w)).
  - by rewrite (proj2 (proj2 (handle_chat_frame orc request w))).
  - by rewrite upload_pdf_keeps_tokens.
  - by rewrite (proj2 (path_frame svc orc file_path w)).
  - rewrite register_adds. apply union_subseteq_l.
  - by rewrite (proj1 (send_notification_frame svc orc request w)).
  - done.
Qed.

Lemma run_ops_tokens ops w :
  fcm_tokens w ⊆ fcm_tokens (run_ops settings svc ops w).
Proof.
  unfold run_ops. revert w.
  induction ops as [|op ops IH]; intros w; simpl; [done|].
  etrans; [apply (run_op_tokens op)|apply IH].
Qed.

(** Once the store exists it keeps existing. *)
Lemma path_keeps_store orc file_path w :
  vector_store.exists_and_listed (chroma w) = true ->
  vector_store.exists_and_listed
    (chroma (state_after (pdf_service.process_pdf_from_path svc orc file_path) w))
  = true.
Proof. intros Hd. unfold state_after. path_cases svc orc file_path w; done. Qed.

Lemma upload_keeps_store orc upload w :
  vector_store.exists_and_listed (chroma w) = true ->
  vector_store.exists_and_listed
    (chroma (state_after
               (pdf_service.process_and_update_vector_store svc orc upload) w))
  = true.
Proof. intros Hd. unfold state_after. upload_cases svc orc upload w; done. Qed.

Lemma lifespan_keeps_store orc w :
  vector_store.exists_and_listed (chroma w) = true ->
  vector_store.exists_and_listed (chroma (state_after (main.lifespan svc orc) w))
  = true.
Proof.
  intros Hd. unfold state_after, main.lifespan, pdf_service.os_path_exists.
  unfold_monad. simpl.
  destruct (firebase_init orc); simpl.
  all: case_bool_decide; simpl; [|done].
  all: match goal with
       | |- context [pdf_service.process_pdf_from_path _ ?o ?p ?w0] =>
           pose proof (path_keeps_store o p w0 Hd) as Hp;
           unfold state_after in Hp;
           destruct (pdf_service.process_pdf_from_path svc o p w0) as [[[]|err] w2]
       end; exact Hp.
Qed.

Lemma run_op_keeps_store op w :
  vector_store.exists_and_listed (chroma w) = true ->
  vector_store.exists_and_listed (chroma (run_op settings svc op w)) = true.
Proof.
  intros Hd. destruct op; simpl.
  - destruct (chroma w) as [| |docs] eqn:Hc; try discriminate.
    unfold state_after.
    by rewrite (get_vector_store_loads _ _ _ docs Hc); simpl; rewrite Hc.
  - by apply lifespan_keeps_store.
  - by rewrite handle_chat_keeps_chroma.
  - destruct (upload_pdf_state orc upload w) as [out ->].
    case_bool_decide; [|done]. simpl. by apply upload_keeps_store.
  - by apply path_keeps_store.
  - by rewrite register_keeps_chroma.
  - by rewrite send_notification_keeps_chroma.
  - done.
Qed.

Lemma run_ops_keeps_store ops w :
  vector_store.exists_and_listed (chroma w) = true ->
  vector_store.exists_and_listed (chroma (run_ops settings svc ops w)) = true.
Proof.
  unfold run_ops. revert w.
  induction ops as [|op ops IH]; intros w Hd; simpl; [done|].
  apply IH. by apply run_op_keeps_store.
Qed.
End Frames.

(** ** Start-up *)

(** X1.  Start-up never fails: whatever Firebase, the PDF extractor and the
    vector store do, and whether the menu file exists or not, [lifespan]
    returns; it leaves the registered tokens alone and the index after it
    extends the index before it. *)
Theorem lifespan_never_fails (svc : Services) (orc : Oracle) (w : World) :
  let '(r, w') := main.lifespan svc orc w in
  r = Ok tt
  /\ fcm_tokens w' = fcm_tokens w
  /\ index w `prefix_of` index w'.
Proof.
  pose proof (lifespan_returns svc orc w) as Hr.
  pose proof (lifespan_frame svc orc w) as [_ Ht].
  pose proof (lifespan_index_prefix svc orc w) as Hp.
  unfold state_after in *.
  destruct (main.lifespan svc orc w) as [r w']. simpl in *. done.
Qed.

(** X2.  When [app/data/menu.pdf] does not exist, start-up only prints: the
    collection is untouched and no service is called. *)
Theorem lifespan_without_menu (svc : Services) (orc : Oracle) (w : World) :
  files w !! "app/data/menu.pdf" = None ->
  let '(r, w') := main.lifespan svc orc w in
  r = Ok tt /\ chroma w' = chroma w /\ net w' = net w.
Proof.
  intros Hf.
  pose proof (lifespan_returns svc orc w) as Hr.
  pose proof (lifespan_no_menu svc orc w Hf) as [Hc Hn].
  unfold state_after in *.
  destruct (main.lifespan svc orc w) as [r w']. simpl in *. done.
Qed.

Lemma lifespan_without_menu_witness :
  let '(r, w') := main.lifespan demo.svc demo.calm demo.bootstrapped in
  r = Ok tt /\ chroma w' = chroma demo.bootstrapped /\ net w' = net demo.bootstrapped.
Proof.
  apply (lifespan_without_menu demo.svc demo.calm demo.bootstrapped).
  reflexivity.
Defined.

(** X3.  When the menu file is there and its text cannot be extracted,
    start-up still returns: the error is printed, the collection is untouched
    and no service is called. *)
Theorem lifespan_swallows_extraction_error
    (svc : Services) (orc : Oracle) (w : World) (data : list byte) (e : exn) :
  files w !! "app/data/menu.pdf" = Some data ->
  extract_pages svc data = Raise e ->
  let '(r, w') := main.lifespan svc orc w in
  r = Ok tt /\ chroma w' = chroma w /\ net w' = net w
  /\ last (stdout w')
     = Some ("Error al procesar el PDF durante el inicio: " +:+ str_exn e).
Proof.
  intros Hf He.
  pose proof (lifespan_returns svc orc w) as Hr.
  pose proof (lifespan_swallows svc orc w data e Hf He) as (Hc & Hn & Hl).
  unfold state_after in *.
  destruct (main.lifespan svc orc w) as [r w']. simpl in *. done.
Qed.

Lemma lifespan_swallows_extraction_error_witness :
  let '(r, w') := main.lifespan demo.svc demo.calm scenario.with_garbage_menu in
  r = Ok tt /\ chroma w' = chroma scenario.with_garbage_menu
  /\ net w' = net scenario.with_garbage_menu
  /\ last (stdout w')
     = Some ("Error al procesar el PDF durante el inicio: "
             +:+ str_exn (Error "invalid pdf header")).
Proof.
  apply (lifespan_swallows_extraction_error demo.svc demo.calm
           scenario.with_garbage_menu demo.not_a_pdf (Error "invalid pdf header")).
  - reflexivity.
  - reflexivity.
Defined.

(** X4.  Every start re-ingests the menu: after two start-ups with the menu
    file in place and the services answering, its chunks are in the index
    twice, after what the index held. *)
Theorem restart_reingests_menu
    (svc : Services) (first second : Oracle) (w : World)
    (data : list byte) (pages : list string) :
  files w !! "app/data/menu.pdf" = Some data ->
  extract_pages svc data = Ok pages ->
  store_write first = None ->
  store_write second = None ->
  let chunks := pdf_service.chunks_of svc "app/data/menu.pdf" pages in
  index (state_after (main.lifespan svc second)
           (state_after (main.lifespan svc first) w))
  = index w ++ chunks ++ chunks.
Proof.
  intros Hf He H1 H2 chunks.
  pose proof (lifespan_ingests svc first w data pages Hf He H1) as Hi1.
  pose proof (lifespan_frame svc first w) as [Hf1 _]. simpl in Hf1.
  set (w1 := state_after (main.lifespan svc first) w) in *.
  assert (Hf' : files w1 !! "app/data/menu.pdf" = Some data) by (by rewrite Hf1).
  pose proof (lifespan_ingests svc second w1 data pages Hf' He H2) as Hi2.
  rewrite Hi2, Hi1. by rewrite <- app_assoc.
Qed.

Lemma restart_reingests_menu_witness :
  index (state_after (main.lifespan demo.svc demo.calm)
           (state_after (main.lifespan demo.svc demo.calm) scenario.with_menu))
  = index scenario.with_menu
    ++ pdf_service.chunks_of demo.svc "app/data/menu.pdf" [demo.menu_text]
    ++ pdf_service.chunks_of demo.svc "app/data/menu.pdf" [demo.menu_text].
Proof.
  apply (restart_reingests_menu demo.svc demo.calm demo.calm scenario.with_menu
           demo.menu_pdf [demo.menu_text]); reflexivity.
Defined.

(** ** Notifications, further *)

Section FanoutCalls.
Context (svc : Services).

(** With between 1 and 500 tokens registered, the push service is called
    once, with every registered token, and the answer is not 404. *)
Lemma send_notification_calls_once orc request w :
  fcm_tokens w ≠ ∅ ->
  length (main.token_list w) <= 500 ->
  let '(r, w') := main.send_notification_to_all svc orc request w in
  net w' = net w ++ [SendMulticast (main.token_list w) (main.title request)
                       (main.body request)]
  /\ match r with
     | Ok _ => True
     | Raise (HTTPException code _) => code = 500
     | Raise (Error _) => False
     end.
Proof.
  intros Hne Hmax. unfold main.send_notification_to_all, main.MulticastMessage,
    main.send_multicast.
  unfold_monad. simpl. rewrite bool_decide_eq_false_2 by done. simpl.
  rewrite bool_decide_eq_false_2 by lia. simpl.
  repeat (case_match; simpl in *; simplify_eq; try done).
Qed.
End FanoutCalls.

(** X5.  Sending never changes the token set, the files or the collection,
    whatever the push service answers: a token whose delivery failed stays
    registered. *)
Theorem send_notification_never_unregisters
    (svc : Services) (orc : Oracle) (request : main.NotificationRequest) (w : World) :
  let w' := state_after (main.send_notification_to_all svc orc request) w in
  fcm_tokens w' = fcm_tokens w /\ files w' = files w /\ chroma w' = chroma w.
Proof.
  intros w'. destruct (send_notification_frame svc orc request w) as [Ht Hf].
  split_and!; [done|done|apply send_notification_keeps_chroma].
Qed.

(** X6.  With between 1 and 500 tokens registered, when the push service
    answers with one response per token, the handler succeeds even if
    deliveries failed: it returns the message that counts successes and
    failures, the two counts add up to the number of registered tokens, and
    the push service was called exactly once, with all the tokens, the title
    and the body. *)
Theorem send_notification_reports_counts
    (svc : Services) (orc : Oracle) (request : main.NotificationRequest)
    (w : World) (responses : list bool) :
  fcm_tokens w ≠ ∅ ->
  size (fcm_tokens w) <= 500 ->
  fcm_reply orc (main.token_list w) = Ok responses ->
  length responses = length (main.token_list w) ->
  let '(r, w') := main.send_notification_to_all svc orc request w in
  r = Ok (notify.summary_of responses)
  /\ main.success_count responses + main.failure_count responses
     = size (fcm_tokens w)
  /\ net w' = net w ++ [SendMulticast (main.token_list w) (main.title request)
                          (main.body request)].
Proof.
  intros Hne Hmax Hr Hlen.
  destruct (send_notification_answered svc orc request w responses Hne Hmax Hr)
    as [out ->]; [lia|].
  split_and!; [done| |done].
  rewrite counts_add_up, Hlen. reflexivity.
Qed.

Lemma send_notification_reports_counts_witness :
  let request := {| main.title := "Hoy"; main.body := "Pizza 2x1" |} in
  let '(r, w') :=
    main.send_notification_to_all demo.svc scenario.rejecting request
      scenario.two_devices in
  r = Ok (notify.summary_of [false; false])
  /\ main.success_count [false; false] + main.failure_count [false; false]
     = size (fcm_tokens scenario.two_devices)
  /\ net w' = net scenario.two_devices
              ++ [SendMulticast (main.token_list scenario.two_devices)
                    (main.title request) (main.body request)].
Proof.
  intros request.
  apply (send_notification_reports_counts demo.svc scenario.rejecting request
           scenario.two_devices [false; false]).
  - vm_compute. discriminate.
  - vm_compute. lia.
  - vm_compute. reflexivity.
  - vm_compute. reflexivity.
Defined.

(** X7.  With between 1 and 500 tokens registered, when the push service
    raises, the handler answers HTTP 500 carrying the message of the error,
    after one call; the token set is unchanged. *)
Theorem send_notification_push_error
    (svc : Services) (orc : Oracle) (request : main.NotificationRequest)
    (w : World) (e : exn) :
  fcm_tokens w ≠ ∅ ->
  size (fcm_tokens w) <= 500 ->
  fcm_reply orc (main.token_list w) = Raise e ->
  let '(r, w') := main.send_notification_to_all svc orc request w in
  r = Raise (HTTPException 500 ("Error al enviar las notificaciones: " +:+ str_exn e))
  /\ net w' = net w ++ [SendMulticast (main.token_list w) (main.title request)
                          (main.body request)]
  /\ fcm_tokens w' = fcm_tokens w.
Proof.
  intros Hne Hmax Hr.
  by rewrite (send_notification_push_fails svc orc request w e Hne Hmax Hr).
Qed.

Lemma send_notification_push_error_witness :
  let request := {| main.title := "Hoy"; main.body := "Pizza 2x1" |} in
  let '(r, w') :=
    main.send_notification_to_all demo.svc scenario.push_down request
      scenario.two_devices in
  r = Raise (HTTPException 500
               ("Error al enviar las notificaciones: "
                +:+ str_exn (Error "The default Firebase app does not exist.")))
  /\ net w' = net scenario.two_devices
              ++ [SendMulticast (main.token_list scenario.two_devices)
                    (main.title request) (main.body request)]
  /\ fcm_tokens w' = fcm_tokens scenario.two_devices.
Proof.
  intros request.
  apply (send_notification_push_error demo.svc scenario.push_down request
           scenario.two_devices (Error "The default Firebase app does not exist.")).
  - vm_compute. discriminate.
  - vm_compute. lia.
  - reflexivity.
Defined.

(** X8.  For a response list as long as the token list, the loop over the
    responses never raises and collects exactly the tokens whose response
    failed, in order: as many as the failure count, all of them registered
    tokens. *)
Theorem failed_tokens_are_listed (tokens : list string) (responses : list bool) :
  length responses = length tokens ->
  main.failed_from tokens 0 responses = Ok (notify.failed_at tokens responses)
  /\ length (notify.failed_at tokens responses) = main.failure_count responses
  /\ forall t, t ∈ notify.failed_at tokens responses ->
       exists i, tokens !! i = Some t /\ responses !! i = Some false.
Proof.
  intros Hlen.
  destruct (failed_from_in_range tokens responses 0) as [Hrun Hcount];
    [simpl; lia|].
  rewrite drop_0 in *. split_and!; [done|done|].
  intros t Hin. unfold notify.failed_at in Hin.
  apply list_elem_of_omap in Hin as ([t' ok] & Hzip & Hsome).
  destruct ok; [discriminate|]. injection Hsome as ->.
  apply list_elem_of_lookup in Hzip as [i Hi].
  apply lookup_zip_with_Some in Hi as (a & b & Hab & Ha & Hb).
  injection Hab as <- <-. by exists i.
Qed.

Lemma failed_tokens_are_listed_witness :
  main.failed_from ["device-1"; "device-2"; "device-3"] 0 [true; false; false]
  = Ok (notify.failed_at ["device-1"; "device-2"; "device-3"] [true; false; false])
  /\ length (notify.failed_at ["device-1"; "device-2"; "device-3"]
               [true; false; false])
     = main.failure_count [true; false; false]
  /\ forall t, t ∈ notify.failed_at ["device-1"; "device-2"; "device-3"]
                     [true; false; false] ->
       exists i, ["device-1"; "device-2"; "device-3"] !! i = Some t
                 /\ [true; false; false] !! i = Some false.
Proof.
  apply (failed_tokens_are_listed ["device-1"; "device-2"; "device-3"]
           [true; false; false]).
  reflexivity.
Defined.

(** X9.  No operation of the application unregisters a token: across every
    sequence of operations the tokens registered before are registered
    after. *)
Theorem tokens_are_never_unregistered
    (settings : Settings) (svc : Services) (ops : list Op) (w : World) :
  fcm_tokens w ⊆ fcm_tokens (run_ops settings svc ops w).
Proof. apply run_ops_tokens. Qed.

(** X10.  The token set does not depend on the order of two registrations,
    and it is the set of before with the two tokens added. *)
Theorem registration_order_is_irrelevant
    (svc : Services) (a b : main.FcmTokenRequest) (w : World) :
  let ab := state_after (main.register_fcm_token svc b)
              (state_after (main.register_fcm_token svc a) w) in
  let ba := state_after (main.register_fcm_token svc a)
              (state_after (main.register_fcm_token svc b) w) in
  fcm_tokens ab = fcm_tokens ba
  /\ fcm_tokens ab = fcm_tokens w ∪ {[main.token a]} ∪ {[main.token b]}.
Proof.
  intros ab ba. unfold ab, ba. rewrite !register_adds.
  split; [|done].
  rewrite <- !(assoc_L (∪)). f_equal. apply (comm_L (∪)).
Qed.

(** X11.  After a token is registered, a notification request is never
    answered 404 and the token is among the tokens to notify.  With at most
    500 tokens registered, the push service is called once, with that list;
    with more, the message cannot be built: the [ValueError] of its
    constructor leaves the handler as it is and the push service is not
    called. *)
Theorem registered_token_is_notified
    (svc : Services) (orc : Oracle) (registration : main.FcmTokenRequest)
    (request : main.NotificationRequest) (w : World) :
  let w1 := state_after (main.register_fcm_token svc registration) w in
  let '(r, w2) := main.send_notification_to_all svc orc request w1 in
  (forall detail, r ≠ Raise (HTTPException 404 detail))
  /\ main.token registration ∈ main.token_list w1
  /\ (if bool_decide (length (main.token_list w1) <= 500) then
        net w2 = net w1 ++ [SendMulticast (main.token_list w1) (main.title request)
                              (main.body request)]
      else r = Raise main.too_many_tokens /\ w2 = w1).
Proof.
  intros w1.
  assert (Hin : main.token registration ∈ fcm_tokens w1).
  { unfold w1. rewrite register_adds.
    apply elem_of_union_r. by apply elem_of_singleton. }
  assert (Hne : fcm_tokens w1 ≠ ∅).
  { intros He. rewrite He in Hin. by apply not_elem_of_empty in Hin. }
  assert (Hlist : main.token registration ∈ main.token_list w1).
  { unfold main.token_list. by apply elem_of_elements. }
  case_bool_decide as Hmax.
  - pose proof (send_notification_calls_once svc orc request w1 Hne Hmax) as Hcall.
    destruct (main.send_notification_to_all svc orc request w1) as [r w2].
    destruct Hcall as [Hnet Hr]. split_and!; [|done|done].
    intros detail ->. discriminate.
  - rewrite (send_notification_too_many svc orc request w1) by lia.
    split_and!; done.
Qed.

(** More than 500 registered tokens: no notification can be sent. *)
Example notification_to_a_crowd :
  main.send_notification_to_all demo.svc demo.calm
    {| main.title := "Hoy"; main.body := "Pizza 2x1" |} scenario.crowd
  = (Raise main.too_many_tokens, scenario.crowd).
Proof.
  apply send_notification_too_many. vm_compute. lia.
Qed.

(** ** The upload endpoint and the file system *)

(** X12.  [/api/upload-pdf] has three outcomes and no other: the fixed success
    message, HTTP 400 exactly when the content type is not [application/pdf],
    and HTTP 500 for a PDF whose ingestion raised.  No exception of the
    ingestion escapes as it is. *)
Theorem upload_pdf_outcomes
    (svc : Services) (orc : Oracle) (upload : UploadFile) (w : World) :
  match fst (chat.upload_pdf svc orc upload w) with
  | Ok message =>
      message = chat.upload_done
      /\ content_type upload = Some "application/pdf"
  | Raise (HTTPException code detail) =>
      (code = 400 /\ content_type upload ≠ Some "application/pdf")
      \/ (code = 500 /\ content_type upload = Some "application/pdf")
  | Raise (Error _) => False
  end.
Proof.
  destruct (decide (content_type upload = Some "application/pdf")) as [Hct|Hct].
  - destruct (pdf_service.process_and_update_vector_store svc orc upload w)
      as [[[]|e] w'] eqn:Hrun.
    + by rewrite (upload_pdf_ok _ _ _ _ _ Hct Hrun).
    + rewrite (upload_pdf_raise _ _ _ _ _ _ Hct Hrun). simpl. by right.
  - rewrite upload_pdf_bad_content_type by done. simpl. by left.
Qed.

(** X14.  An upload whose text cannot be extracted leaves nothing behind:
    when the temporary file is new and the uploaded bytes are written to it,
    the file is removed again and after the request the files, the
    collection, the token set and the network log are those of before. *)
Theorem rejected_pdf_leaves_nothing_behind
    (svc : Services) (orc : Oracle) (upload : UploadFile) (w : World)
    (tmp : string) (e : exn) :
  tmp_create orc = Ok tmp ->
  files w !! tmp = None ->
  tmp_write orc = None ->
  extract_pages svc (file upload) = Raise e ->
  let w' := state_after (chat.upload_pdf svc orc upload) w in
  files w' = files w /\ chroma w' = chroma w
  /\ fcm_tokens w' = fcm_tokens w /\ net w' = net w.
Proof.
  intros Hc Hfresh Hw He w'. unfold w'.
  destruct (upload_pdf_state svc orc upload w) as [out ->].
  case_bool_decide; [|done]. unfold state_after.
  rewrite (upload_extraction_fails _ _ _ _ _ _ Hc Hw He). simpl.
  split_and!; try done.
  apply map_eq. intros path. destruct (decide (tmp = path)) as [<-|Hne].
  - by rewrite lookup_delete_eq.
  - by rewrite lookup_delete_ne, !lookup_insert_ne.
Qed.

Lemma rejected_pdf_leaves_nothing_behind_witness :
  let w' := state_after (chat.upload_pdf demo.svc demo.calm
                           (demo.upload_of "application/pdf" demo.not_a_pdf))
              scenario.with_menu in
  files w' = files scenario.with_menu /\ chroma w' = chroma scenario.with_menu
  /\ fcm_tokens w' = fcm_tokens scenario.with_menu
  /\ net w' = net scenario.with_menu.
Proof.
  apply (rejected_pdf_leaves_nothing_behind demo.svc demo.calm
           (demo.upload_of "application/pdf" demo.not_a_pdf) scenario.with_menu
           "/tmp/tmpk3x9.pdf" (Error "invalid pdf header")); reflexivity.
Defined.

Section Provenance.
Context (svc : Services).

Lemma split_documents_metadata (f : nat -> string -> Document) pages
    (P : option Metadata -> Prop) :
  (forall i text, i < length pages -> P (metadata (f i text))) ->
  Forall (fun d => P (metadata d))
         (pdf_service.split_documents svc 1000 100 (imap f pages)).
Proof.
  unfold pdf_service.split_documents.
  revert f. induction pages as [|text pages IH]; intros f Hf; simpl; [done|].
  apply Forall_app. split.
  - apply Forall_forall. intros d Hd.
    apply list_elem_of_fmap in Hd as (chunk & -> & _). simpl.
    apply Hf. simpl. lia.
  - apply IH. intros i t Hi. apply Hf. simpl. lia.
Qed.

Lemma chunks_of_metadata file_path pages :
  Forall (fun d => exists i, i < length pages
                     /\ metadata d = Some {| source := file_path; page := i |})
         (pdf_service.chunks_of svc file_path pages).
Proof.
  unfold pdf_service.chunks_of, pdf_service.page_documents.
  apply (split_documents_metadata _ pages
           (fun m => exists i, i < length pages
                       /\ m = Some {| source := file_path; page := i |})).
  intros i text Hi. by exists i.
Qed.
End Provenance.

(** X16.  Every chunk that a successful upload appends names as its source
    the temporary file of that upload, with a page number of the document;
    when the function returns that file no longer exists. *)
Theorem uploaded_chunks_name_the_tmp_file
    (svc : Services) (orc : Oracle) (upload : UploadFile) (w w' : World) :
  pdf_service.process_and_update_vector_store svc orc upload w = (Ok tt, w') ->
  exists tmp pages appended,
    tmp_create orc = Ok tmp
    /\ extract_pages svc (file upload) = Ok pages
    /\ index w' = index w ++ appended
    /\ Forall (fun d => exists i, i < length pages
                          /\ metadata d = Some {| source := tmp; page := i |})
              appended
    /\ files w' !! tmp = None.
Proof.
  intros Hrun.
  destruct (upload_ok_inv svc orc upload w w' Hrun)
    as (tmp & pages & Hc & Hw & He & Hs & Hi & _).
  exists tmp, pages, (pdf_service.chunks_of svc tmp pages).
  split_and!; [done|done|done|apply chunks_of_metadata|].
  pose proof (upload_removes_tmp_file svc orc upload w tmp Hc Hw) as Hgone.
  unfold state_after in Hgone. by rewrite Hrun in Hgone.
Qed.

Lemma uploaded_chunks_name_the_tmp_file_witness :
  let up := demo.upload_of "application/pdf" demo.two_page_pdf in
  let w' := snd (pdf_service.process_and_update_vector_store demo.svc demo.calm up
                   demo.bootstrapped) in
  exists tmp pages appended,
    tmp_create demo.calm = Ok tmp
    /\ extract_pages demo.svc (file up) = Ok pages
    /\ index w' = index demo.bootstrapped ++ appended
    /\ Forall (fun d => exists i, i < length pages
                          /\ metadata d = Some {| source := tmp; page := i |})
              appended
    /\ files w' !! tmp = None.
Proof.
  intros up w'.
  apply (uploaded_chunks_name_the_tmp_file demo.svc demo.calm up demo.bootstrapped w').
  vm_compute. reflexivity.
Defined.

(** ** The chat endpoint *)

(** X17.  Answering a question reads and never writes: the collection, the
    files and the token set after [/api/chat] are those of before, whether the
    chain answered or raised. *)
Theorem handle_chat_is_read_only
    (svc : Services) (orc : Oracle) (request : chat.ChatRequest) (w : World) :
  let w' := state_after (chat.handle_chat svc orc request) w in
  chroma w' = chroma w /\ files w' = files w /\ fcm_tokens w' = fcm_tokens w.
Proof. apply handle_chat_frame. Qed.

(** X18.  When the retrieval raises, the chat model is never called: the only
    outbound call is the embedding of the question, and the client receives
    HTTP 500 carrying the message of the retrieval error. *)
Theorem failed_retrieval_skips_the_llm
    (svc : Services) (orc : Oracle) (request : chat.ChatRequest) (w : World)
    (e : exn) :
  store_read orc = Some e ->
  let '(r, w') := chat.handle_chat svc orc request w in
  r = Raise (HTTPException 500 (chat.chat_failed e))
  /\ net w' = net w ++ [EmbedQuery (chat.question request)].
Proof.
  intros Hr. unfold chat.handle_chat.
  erewrite try_except_raise.
  2: { erewrite bind_raise; [reflexivity|]. unfold rag_chain.rag_chain.
       erewrite bind_raise; [reflexivity|]. by apply retriever_raise. }
  done.
Qed.

Lemma failed_retrieval_skips_the_llm_witness :
  let request := {| chat.question := "What is the price of pizza?" |} in
  let '(r, w') :=
    chat.handle_chat demo.svc scenario.store_unreadable request demo.bootstrapped in
  r = Raise (HTTPException 500 (chat.chat_failed (Error "collection unreachable")))
  /\ net w' = net demo.bootstrapped ++ [EmbedQuery (chat.question request)].
Proof.
  intros request.
  apply (failed_retrieval_skips_the_llm demo.svc scenario.store_unreadable request
           demo.bootstrapped (Error "collection unreachable")).
  reflexivity.
Defined.

(** X19.  When the chat model raises on the prompt, the client receives HTTP
    500 carrying the message of that error, after the two outbound calls of
    the chain: the embedding of the question and the completion. *)
Theorem failed_completion_is_a_500
    (svc : Services) (orc : Oracle) (request : chat.ChatRequest) (w : World)
    (e : exn) :
  store_read orc = None ->
  (forall text, llm_reply orc text = Raise e) ->
  let '(r, w') := chat.handle_chat svc orc request w in
  r = Raise (HTTPException 500 (chat.chat_failed e))
  /\ exists text, net w' = net w ++ [EmbedQuery (chat.question request);
                                     Completion text].
Proof.
  intros Hr Hl. unfold chat.handle_chat.
  pose proof (rag_chain_calls svc orc (chat.question request) w Hr) as Hrun.
  simpl in Hrun. rewrite Hl in Hrun.
  erewrite try_except_raise; [|by erewrite bind_raise by exact Hrun].
  simpl. split; [done|]. by eexists.
Qed.

Lemma failed_completion_is_a_500_witness :
  let request := {| chat.question := "What is the price of pizza?" |} in
  let '(r, w') :=
    chat.handle_chat demo.svc scenario.quota_exhausted request demo.bootstrapped in
  r = Raise (HTTPException 500
               (chat.chat_failed (Error "429 Resource has been exhausted")))
  /\ exists text, net w' = net demo.bootstrapped
                           ++ [EmbedQuery (chat.question request); Completion text].
Proof.
  intros request.
  apply (failed_completion_is_a_500 demo.svc scenario.quota_exhausted request
           demo.bootstrapped (Error "429 Resource has been exhausted")).
  - reflexivity.
  - intros text. reflexivity.
Defined.

(** ** The vector store across restarts *)

(** X20.  The bootstrap entry is never inserted twice: once
    [get_vector_store] has returned, whatever the application does afterwards,
    a later [get_vector_store] returns with the index and the network log
    unchanged. *)
Theorem bootstrap_is_not_repeated
    (settings : Settings) (svc : Services) (first later : Oracle)
    (ops : list Op) (w w1 : World) :
  vector_store.get_vector_store settings first w = (Ok tt, w1) ->
  let w2 := run_ops settings svc ops w1 in
  let '(r, w3) := vector_store.get_vector_store settings later w2 in
  r = Ok tt /\ index w3 = index w2 /\ net w3 = net w2.
Proof.
  intros Hfirst w2.
  assert (Hd1 : vector_store.exists_and_listed (chroma w1) = true).
  { destruct (vector_store.exists_and_listed (chroma w)) eqn:Hd.
    - destruct (chroma w) as [| |docs] eqn:Hc; try discriminate.
      rewrite (get_vector_store_loads _ _ _ docs Hc) in Hfirst.
      injection Hfirst as <-. simpl. by rewrite Hc.
    - destruct (store_write first) as [e|] eqn:Hs.
      + by rewrite (get_vector_store_create_fails _ _ _ e Hd Hs) in Hfirst.
      + rewrite (get_vector_store_creates _ _ _ Hd Hs) in Hfirst.
        by injection Hfirst as <-. }
  pose proof (run_ops_keeps_store settings svc ops w1 Hd1) as Hd2.
  fold w2 in Hd2.
  destruct (chroma w2) as [| |docs] eqn:Hc; try discriminate.
  rewrite (get_vector_store_loads _ _ _ docs Hc). done.
Qed.

Lemma bootstrap_is_not_repeated_witness :
  let w1 := snd (vector_store.get_vector_store demo.settings demo.calm demo.blank) in
  let w2 := run_ops demo.settings demo.svc
              [UploadPdf demo.calm (demo.upload_of "application/pdf" demo.menu_pdf)]
              w1 in
  let '(r, w3) := vector_store.get_vector_store demo.settings demo.calm w2 in
  r = Ok tt /\ index w3 = index w2 /\ net w3 = net w2.
Proof.
  intros w1.
  apply (bootstrap_is_not_repeated demo.settings demo.svc demo.calm demo.calm
           [UploadPdf demo.calm (demo.upload_of "application/pdf" demo.menu_pdf)]
           demo.blank w1).
  vm_compute. reflexivity.
Defined.

(** ** The settings *)

Section SettingsCache.
Context {Env : Type} (Settings_init : Env -> Result Settings).

Lemma replay_cached envs p settings :
  config.cache p = Some settings ->
  let '(rs, p') := config.replay Settings_init envs p in
  rs = map (fun _ => Ok settings) envs
  /\ config.cache p' = Some settings
  /\ config.inits p' = config.inits p.
Proof.
  revert p. induction envs as [|env envs IH]; intros p Hc; simpl; [done|].
  unfold config.setenv, config.get_settings. unfold_monad. simpl. rewrite Hc.
  match goal with
  | |- context [config.replay _ _ ?q] => specialize (IH q eq_refl)
  end.
  destruct (config.replay Settings_init envs _) as [rs p2].
  destruct IH as (-> & ? & ?). done.
Qed.
End SettingsCache.

(** X21.  The settings are read once: after a call of [get_settings] that
    returned, every later call returns the same settings, however the
    environment changes in between, and [Settings()] is not evaluated
    again. *)
Theorem settings_are_read_once
    {Env : Type} (Settings_init : Env -> Result Settings)
    (p p1 : config.Process) (settings : Settings) (envs : list Env) :
  config.get_settings Settings_init p = (Ok settings, p1) ->
  let '(rs, p2) := config.replay Settings_init envs p1 in
  rs = map (fun _ => Ok settings) envs
  /\ config.inits p2 = config.inits p1.
Proof.
  intros Hget.
  assert (Hc : config.cache p1 = Some settings).
  { unfold config.get_settings in Hget.
    destruct (config.cache p) as [cached|] eqn:Hcache.
    - by injection Hget as <- <-.
    - destruct (Settings_init (config.environ p)); [|discriminate].
      by injection Hget as <- <-. }
  pose proof (replay_cached Settings_init envs p1 settings Hc) as Hreplay.
  destruct (config.replay Settings_init envs p1) as [rs p2].
  destruct Hreplay as (? & _ & ?). done.
Qed.

Lemma settings_are_read_once_witness :
  let p := {| config.environ := scenario.full_env;
              config.cache := None; config.inits := 0 |} in
  let p1 := snd (config.get_settings scenario.settings_of p) in
  let '(rs, p2) := config.replay scenario.settings_of [[]; scenario.full_env] p1 in
  rs = map (fun _ => Ok demo.settings) [[]; scenario.full_env]
  /\ config.inits p2 = config.inits p1.
Proof.
  intros p p1.
  apply (settings_are_read_once scenario.settings_of p p1 demo.settings
           [[]; scenario.full_env]).
  vm_compute. reflexivity.
Defined.

(** X22.  A failed reading of the settings is not remembered: when
    [get_settings] raised because a field was absent, a later call evaluates
    [Settings()] again and returns the settings of the environment of that
    moment. *)
Theorem failed_settings_are_retried
    {Env : Type} (Settings_init : Env -> Result Settings)
    (p : config.Process) (e : exn) (env : Env) (settings : Settings) :
  config.cache p = None ->
  Settings_init (config.environ p) = Raise e ->
  Settings_init env = Ok settings ->
  let '(r1, p1) := config.get_settings Settings_init p in
  let '(r2, p2) := (config.setenv env;; config.get_settings Settings_init) p1 in
  r1 = Raise e /\ r2 = Ok settings
  /\ config.inits p2 = 2 + config.inits p
  /\ config.cache p2 = Some settings.
Proof.
  intros Hc He Hok. unfold config.get_settings, config.setenv. unfold_monad. simpl.
  rewrite Hc, He. simpl. rewrite Hok. done.
Qed.

Lemma failed_settings_are_retried_witness :
  let p := {| config.environ := [("GOOGLE_API_KEY", "test-key")];
              config.cache := None; config.inits := 0 |} in
  let '(r1, p1) := config.get_settings scenario.settings_of p in
  let '(r2, p2) :=
    (config.setenv scenario.full_env;; config.get_settings scenario.settings_of) p1 in
  r1 = Raise (Error "validation error for Settings: Field required")
  /\ r2 = Ok demo.settings
  /\ config.inits p2 = 2 + config.inits p
  /\ config.cache p2 = Some demo.settings.
Proof.
  intros p.
  apply (failed_settings_are_retried scenario.settings_of p
           (Error "validation error for Settings: Field required")
           scenario.full_env demo.settings); reflexivity.
Defined.
